(** * XRP dashboard updater: the update-merge cycle

    A shallow embedding of [xrp_dashboard_updater.py] and the properties of
    its fetch / merge / persist cycle.

    The Python program talks to three things outside itself: an HTTP
    endpoint, the local clock and the file system, and in continuous mode it
    sleeps until the user interrupts it.  The embedding makes each of them
    explicit:

    - the file system is a finite map from paths to file contents;
    - the answers of the outside world (what the HTTP request yields, what
      the clock shows, whether a sleep is interrupted) come from an
      environment of oracles, indexed by the number of calls made so far;
    - everything the program does to the outside (printing, requesting,
      reading, writing, sleeping) is recorded in a log;
    - a Python exception is a value of type [exn], and a function that may
      raise returns a [result]. *)

From Stdlib Require Import ZArith String List Ascii DecimalString Lia.
From Stdlib Require Import Floats.SpecFloat.
From Stdlib Require DecimalPos.
From stdpp Require Import gmap strings list fin_maps.

Local Open Scope string_scope.
Local Open Scope Z_scope.

(** ** JSON values, as [json.load] builds them

    A JSON object becomes a Python [dict] with string keys.  Two dicts are
    equal when they hold the same keys with equal values, whatever the order
    of insertion, which is the equality of [gmap].  Python keeps integers
    and floats apart ([3] and [3.0] are written back differently), and so
    does the model; a float is carried as its IEEE 754 value and never
    computed with. *)

#[warnings="-register-all"]
Inductive json : Type :=
  | JNull
  | JBool (b : bool)
  | JInt (z : Z)
  | JFloat (f : spec_float)
  | JStr (s : string)
  | JArr (l : list json)
  | JObj (m : gmap string json).

(** ** Exceptions and results *)

Inductive exn : Type :=
  | KeyboardInterrupt
  | RequestsConnectionError
  | RequestsTimeout
  | HTTPError (status : Z)
  | JSONDecodeError
  | KeyError (key : string)
  | TypeError
  | ValueError
  | OverflowError
  | FileNotFoundError.

(** [except Exception] catches every exception above but
    [KeyboardInterrupt], which derives from [BaseException] only. *)
Definition is_Exception (e : exn) : bool :=
  match e with
  | KeyboardInterrupt => false
  | _ => true
  end.

Definition is_KeyboardInterrupt (e : exn) : bool :=
  match e with
  | KeyboardInterrupt => true
  | _ => false
  end.

Definition is_FileNotFoundError (e : exn) : bool :=
  match e with
  | FileNotFoundError => true
  | _ => false
  end.

(** The outcome of running a piece of Python: it returns, it raises, or
    (for the endless loop of continuous mode only) it is still going when
    the observation stops. *)
Inductive result (A : Type) : Type :=
  | Return (a : A)
  | Raise (e : exn)
  | Unfinished.

Arguments Return {A} a.
Arguments Raise {A} e.
Arguments Unfinished {A}.

Definition rbind {A B : Type} (r : result A) (k : A -> result B) : result B :=
  match r with
  | Return a => k a
  | Raise e => Raise e
  | Unfinished => Unfinished
  end.

(** ** Subscripting *)

(** [v[k]] with a string key [k]. *)
Definition py_getitem (v : json) (k : string) : result json :=
  match v with
  | JObj m =>
      match m !! k with
      | Some x => Return x
      | None => Raise (KeyError k)
      end
  | _ => Raise TypeError
  end.

(** [v[k] = x] with a string key [k]: a dict gains or replaces the entry,
    anything else refuses. *)
Definition py_setitem (v : json) (k : string) (x : json) : result json :=
  match v with
  | JObj m => Return (JObj (<[k := x]> m))
  | _ => Raise TypeError
  end.

(** [d[p1]...[pn][k] = x]: the subscripts [p1 ... pn] are read from the
    outside in, then the entry is stored in the dict they lead to.  That
    dict is the very object the enclosing dicts refer to, so the change
    shows in [d]; the functional model puts the changed dict back at each
    level. *)
Fixpoint assign_at (path : list string) (k : string) (x : json) (d : json)
  : result json :=
  match path with
  | [] => py_setitem d k x
  | p :: ps =>
      rbind (py_getitem d p) (fun sub =>
      rbind (assign_at ps k x sub) (fun sub' =>
      py_setitem d p sub'))
  end.

(** Reading [d[p1]...[pn]] without raising, for statements. *)
Fixpoint lookup_path (path : list string) (d : json) : option json :=
  match path with
  | [] => Some d
  | p :: ps =>
      match d with
      | JObj m =>
          match m !! p with
          | Some sub => lookup_path ps sub
          | None => None
          end
      | _ => None
      end
  end.

(** ** Numbers in format strings *)

(** Converting an [int] to a [float] raises [OverflowError] when the
    rounded value would not fit a double. *)
Definition int_fits_float (z : Z) : bool :=
  Z.abs z <? 2 ^ 1024 - 2 ^ 970.

(** [v / 1e9]: defined on numbers (a [bool] counts as one). *)
Definition py_truediv_1e9 (v : json) : result unit :=
  match v with
  | JFloat _ | JBool _ => Return tt
  | JInt z => if int_fits_float z then Return tt else Raise OverflowError
  | _ => Raise TypeError
  end.

(** [f"{v:.4f}"] and [f"{v:.2f}"]: whether the formatting goes through. *)
Definition py_format_f (v : json) : result unit :=
  match v with
  | JFloat _ | JBool _ => Return tt
  | JInt z => if int_fits_float z then Return tt else Raise OverflowError
  | JStr _ => Raise ValueError
  | _ => Raise TypeError
  end.

(** [str(z)] for an [int]. *)
Definition py_str_int (z : Z) : string :=
  NilZero.string_of_int (Z.to_int z).

(** ** Local time *)

Record datetime : Type := mk_datetime {
  year : nat; month : nat; day : nat;
  hour : nat; minute : nat; second : nat; microsecond : nat
}.

Fixpoint zeros (n : nat) : string :=
  match n with
  | O => ""
  | S n' => "0" ++ zeros n'
  end.

(** [%0wd] *)
Definition pad0 (w : nat) (n : nat) : string :=
  let s := NilZero.string_of_uint (Nat.to_uint n) in
  zeros (w - String.length s) ++ s.

(** [datetime.isoformat()]: the fraction is left out when it is zero. *)
Definition isoformat (d : datetime) : string :=
  pad0 4 (year d) ++ "-" ++ pad0 2 (month d) ++ "-" ++ pad0 2 (day d) ++ "T"
  ++ pad0 2 (hour d) ++ ":" ++ pad0 2 (minute d) ++ ":" ++ pad0 2 (second d)
  ++ (if Nat.eqb (microsecond d) 0 then "" else "." ++ pad0 6 (microsecond d)).




(** ** The outside world *)

(** A file, seen through [json.load]: its text either decodes to a value or
    it does not.  [json.dump] of a value that came from [json.load] writes a
    text that decodes to that value again, so a written file is represented
    by the value written. *)
Inductive file : Type :=
  | JsonText (doc : json)
  | Garbled.

(** What one HTTP request can come to.  The body of a response is seen
    through [response.json()], as a file is through [json.load]: [Some v]
    when the call returns [v], [None] when it raises (the body is not JSON,
    or is JSON that the decoder refuses: an integer of more digits than
    [int] reads, nesting deeper than the interpreter's stack allows). *)
Record response : Type := mk_response {
  status_code : Z;
  body : option json   (* what [response.json()] returns, if it does *)
}.

Inductive http_outcome : Type :=
  | HttpInterrupted                 (* Ctrl+C while waiting *)
  | HttpNoConnection                (* the network failed *)
  | HttpTimedOut                    (* no answer within the timeout *)
  | HttpResponse (r : response).

Inductive sleep_outcome : Type :=
  | Slept
  | SleepInterrupted.               (* Ctrl+C during the sleep *)

Record env : Type := mk_env {
  clock : nat -> datetime;          (* the n-th reading of the clock *)
  http : nat -> http_outcome;       (* the outcome of the n-th request *)
  wake : nat -> sleep_outcome       (* how the n-th sleep ends *)
}.

(** The four values of a successful price fetch: whatever the response held
    under the four keys. *)
Record snapshot : Type := mk_snapshot {
  price : json;
  price_change_24h : json;
  market_cap : json;
  volume_24h : json
}.

(** The lines the program prints, by the statement that prints them. *)
Inductive message : Type :=
  | MsgRule                          (* a line of 70 [=] *)
  | MsgHeader (now : datetime)
  | MsgNotFound (filename : string)
  | MsgFetching
  | MsgFetchError (e : exn)
  | MsgPrice (v : json)
  | MsgChange (v : json)
  | MsgMarketCap (v : json)
  | MsgVolume (v : json)
  | MsgKeeping
  | MsgSupply
  | MsgExchangeSupply (z : Z)
  | MsgUpdated
  | MsgFile (filename : string)
  | MsgStarting (interval_minutes : Z)
  | MsgPressCtrlC
  | MsgNextUpdate (interval_minutes : Z)
  | MsgFarewell
  | MsgUsage (line : nat).

Inductive event : Type :=
  | EvPrint (m : message)
  | EvHttpGet (url : string) (timeout : Z)
  | EvOpenRead (path : string)
  | EvWriteFile (path : string) (doc : json)
  | EvSleep (seconds : Z).

(** The state of the world.  [log] holds the events so far, the most recent
    first. *)
Record world : Type := mk_world {
  fs : gmap string file;
  log : list event;
  clock_reads : nat;
  http_calls : nat;
  sleeps : nat
}.

(** ** Programs *)

Definition prog (A : Type) : Type := env -> world -> world * result A.

Definition ret {A : Type} (a : A) : prog A :=
  fun _ w => (w, Return a).

Definition bind {A B : Type} (c : prog A) (k : A -> prog B) : prog B :=
  fun en w =>
    match c en w with
    | (w', Return a) => k a en w'
    | (w', Raise e) => (w', Raise e)
    | (w', Unfinished) => (w', Unfinished)
    end.

Definition raise {A : Type} (e : exn) : prog A :=
  fun _ w => (w, Raise e).

Definition unfinished {A : Type} : prog A :=
  fun _ w => (w, Unfinished).

Definition lift {A : Type} (r : result A) : prog A :=
  fun _ w => (w, r).

(** [try: body  except <catches> as e: handler e] *)
Definition try_except {A : Type} (body : prog A) (catches : exn -> bool)
  (handler : exn -> prog A) : prog A :=
  fun en w =>
    match body en w with
    | (w', Raise e) => if catches e then handler e en w' else (w', Raise e)
    | other => other
    end.

Notation "x <- c ;; k" := (bind c (fun x => k))
  (at level 100, c at next level, right associativity).
Notation "c ;;; k" := (bind c (fun _ => k))
  (at level 100, right associativity).

Definition emit (e : event) : prog unit :=
  fun _ w =>
    ({| fs := fs w; log := e :: log w; clock_reads := clock_reads w;
        http_calls := http_calls w; sleeps := sleeps w |}, Return tt).

Definition print (m : message) : prog unit := emit (EvPrint m).

(** [datetime.now()] *)
Definition datetime_now : prog datetime :=
  fun en w =>
    ({| fs := fs w; log := log w; clock_reads := S (clock_reads w);
        http_calls := http_calls w; sleeps := sleeps w |},
     Return (clock en (clock_reads w))).

(** [requests.get(url, params=params, timeout=timeout)] *)
Definition requests_get (url : string) (timeout : Z) : prog response :=
  fun en w =>
    let w' := {| fs := fs w; log := EvHttpGet url timeout :: log w;
                 clock_reads := clock_reads w;
                 http_calls := S (http_calls w); sleeps := sleeps w |} in
    match http en (http_calls w) with
    | HttpInterrupted => (w', Raise KeyboardInterrupt)
    | HttpNoConnection => (w', Raise RequestsConnectionError)
    | HttpTimedOut => (w', Raise RequestsTimeout)
    | HttpResponse r => (w', Return r)
    end.

(** [response.raise_for_status()] *)
Definition raise_for_status (r : response) : result unit :=
  if (400 <=? status_code r) && (status_code r <? 600)
  then Raise (HTTPError (status_code r))
  else Return tt.

(** [response.json()]: the decoded body, or the exception of the decoder
    (whatever its class, it is one that [except Exception] catches). *)
Definition response_json (r : response) : result json :=
  match body r with
  | Some data => Return data
  | None => Raise JSONDecodeError
  end.

(** [with open(filename, 'r') as f: json.load(f)] *)
Definition json_load_file (filename : string) : prog json :=
  fun en w =>
    match fs w !! filename with
    | None => (w, Raise FileNotFoundError)
    | Some content =>
        let w' := {| fs := fs w; log := EvOpenRead filename :: log w;
                     clock_reads := clock_reads w;
                     http_calls := http_calls w; sleeps := sleeps w |} in
        match content with
        | JsonText doc => (w', Return doc)
        | Garbled => (w', Raise JSONDecodeError)
        end
    end.

(** [with open(filename, 'w') as f: json.dump(doc, f, indent=2)] *)
Definition json_dump_file (filename : string) (doc : json) : prog unit :=
  fun _ w =>
    ({| fs := <[filename := JsonText doc]> (fs w);
        log := EvWriteFile filename doc :: log w;
        clock_reads := clock_reads w;
        http_calls := http_calls w; sleeps := sleeps w |}, Return tt).

(** [time.sleep(seconds)] for an [int]: the length is first converted to
    a count of nanoseconds in 64 bits, which raises [OverflowError] when it
    does not fit; a negative length is then refused with [ValueError];
    otherwise the process blocks, and wakes up normally or by Ctrl+C.  (Some
    platforms refuse shorter lengths too: the properties below keep to
    [sleep_limit].) *)
Definition time_sleep (seconds : Z) : prog unit :=
  fun en w =>
    if 2 ^ 63 <=? Z.abs seconds * 10 ^ 9 then (w, Raise OverflowError)
    else if seconds <? 0 then (w, Raise ValueError)
    else
      let w' := {| fs := fs w; log := EvSleep seconds :: log w;
                   clock_reads := clock_reads w;
                   http_calls := http_calls w; sleeps := S (sleeps w) |} in
      match wake en (sleeps w) with
      | Slept => (w', Return tt)
      | SleepInterrupted => (w', Raise KeyboardInterrupt)
      end.

(** ** The program *)

Definition price_url : string :=
  "https://api.coingecko.com/api/v3/simple/price".

(** The body of the [try] in [fetch_xrp_price_data], once the response is
    there: the status check, the decoding, and the four pairs of
    subscripts, in the order of the dict display. *)
Definition read_quote (r : response) : result snapshot :=
  rbind (raise_for_status r) (fun _ =>
  rbind (response_json r) (fun data =>
  rbind (py_getitem data "ripple") (fun r1 =>
  rbind (py_getitem r1 "usd") (fun v1 =>
  rbind (py_getitem data "ripple") (fun r2 =>
  rbind (py_getitem r2 "usd_24h_change") (fun v2 =>
  rbind (py_getitem data "ripple") (fun r3 =>
  rbind (py_getitem r3 "usd_market_cap") (fun v3 =>
  rbind (py_getitem data "ripple") (fun r4 =>
  rbind (py_getitem r4 "usd_24h_vol") (fun v4 =>
  Return {| price := v1; price_change_24h := v2;
            market_cap := v3; volume_24h := v4 |})))))))))).

(** [fetch_xrp_price_data()]: [None] stands for Python's [None]. *)
Definition fetch_xrp_price_data : prog (option snapshot) :=
  try_except
    (response <- requests_get price_url 10 ;;
     quote <- lift (read_quote response) ;;
     ret (Some quote))
    is_Exception
    (fun e => print (MsgFetchError e) ;;; ret None).

Record exchange_supply : Type := mk_exchange_supply {
  binance_reserves : Z;
  total_exchange_supply : Z;
  note : string
}.

(** [fetch_exchange_supply()]: a dict display of constants. *)
Definition fetch_exchange_supply : exchange_supply :=
  {| binance_reserves := 3600000000;
     total_exchange_supply := 8500000000;
     note := "Manual update required for accurate exchange data" |}.

(** Truth value of the dict [fetch_exchange_supply] returns: a dict with
    entries is true. *)
Definition exchange_supply_truthy (_ : exchange_supply) : bool := true.

Definition default_filename : string := "xrp_consolidated_dashboard.json".

Definition key_metrics_path : list string :=
  ["trigger_dashboard"; "exchange_supply_depletion"; "key_metrics"].

(** Lines 69 to 80: the branch taken when [price_data] is true, which a
    dict with four entries always is.  In line 75 the right-hand side, and so
    the clock, is evaluated before the subscript on the left. *)
Definition merge_price (price_data : snapshot) (dashboard : json) : prog json :=
  d <- lift (assign_at ["current_market_metrics"] "price_usd"
               (price price_data) dashboard) ;;
  d <- lift (assign_at ["current_market_metrics"] "price_change_24h_pct"
               (price_change_24h price_data) d) ;;
  d <- lift (assign_at ["current_market_metrics"] "market_cap_usd"
               (market_cap price_data) d) ;;
  d <- lift (assign_at ["current_market_metrics"] "volume_24h_usd"
               (volume_24h price_data) d) ;;
  now <- datetime_now ;;
  d <- lift (assign_at ["metadata"] "last_updated" (JStr (isoformat now)) d) ;;
  lift (py_format_f (price price_data)) ;;;
  print (MsgPrice (price price_data)) ;;;
  lift (py_format_f (price_change_24h price_data)) ;;;
  print (MsgChange (price_change_24h price_data)) ;;;
  lift (py_truediv_1e9 (market_cap price_data)) ;;;
  print (MsgMarketCap (market_cap price_data)) ;;;
  lift (py_truediv_1e9 (volume_24h price_data)) ;;;
  print (MsgVolume (volume_24h price_data)) ;;;
  ret d.

(** Lines 86 to 90. *)
Definition merge_supply (dashboard : json) : prog json :=
  let exchange_data := fetch_exchange_supply in
  if exchange_supply_truthy exchange_data then
    d <- lift (assign_at key_metrics_path "binance_reserves_xrp"
                 (JStr (py_str_int (binance_reserves exchange_data)))
                 dashboard) ;;
    d <- lift (assign_at key_metrics_path "total_exchange_supply_xrp"
                 (JStr (py_str_int (total_exchange_supply exchange_data)))
                 d) ;;
    lift (py_truediv_1e9 (JInt (total_exchange_supply exchange_data))) ;;;
    print (MsgExchangeSupply (total_exchange_supply exchange_data)) ;;;
    ret d
  else ret dashboard.

(** Lines 63 to 100: what [update_dashboard_json] does once the document
    is loaded. *)
Definition update_loaded (filename : string) (dashboard : json) : prog bool :=
  print MsgFetching ;;;
  price_data <- fetch_xrp_price_data ;;
  dashboard <- match price_data with
               | Some pd => merge_price pd dashboard
               | None => print MsgKeeping ;;; ret dashboard
               end ;;
  print MsgSupply ;;;
  dashboard <- merge_supply dashboard ;;
  json_dump_file filename dashboard ;;;
  print MsgUpdated ;;;
  print (MsgFile filename) ;;;
  print MsgRule ;;;
  ret true.

(** [update_dashboard_json(filename)]; [None] for the argument left out.
    The [return False] of the handler leaves the function, which the sum
    type renders: [inl b] is a value returned from inside the [try]
    statement, [inr d] the document with which the function goes on. *)
Definition update_dashboard_json (filename : option string) : prog bool :=
  let filename := default default_filename filename in
  print MsgRule ;;;
  now <- datetime_now ;;
  print (MsgHeader now) ;;;
  print MsgRule ;;;
  loaded <- try_except
              (d <- json_load_file filename ;; ret (inr d))
              is_FileNotFoundError
              (fun _ => print (MsgNotFound filename) ;;; ret (inl false)) ;;
  match loaded with
  | inl b => ret b
  | inr dashboard => update_loaded filename dashboard
  end.

(** The [while True] loop of [continuous_update], observed for at most
    [fuel] iterations. *)
Fixpoint update_loop (fuel : nat) (interval_minutes : Z) : prog unit :=
  match fuel with
  | O => unfinished
  | S fuel' =>
      update_dashboard_json None ;;;
      print (MsgNextUpdate interval_minutes) ;;;
      time_sleep (interval_minutes * 60) ;;;
      update_loop fuel' interval_minutes
  end.

(** [continuous_update(interval_minutes)] *)
Definition continuous_update (fuel : nat) (interval_minutes : option Z)
  : prog unit :=
  let interval_minutes := default 15 interval_minutes in
  print (MsgStarting interval_minutes) ;;;
  print MsgPressCtrlC ;;;
  try_except (update_loop fuel interval_minutes)
    is_KeyboardInterrupt
    (fun _ => print MsgFarewell).

(** ** The command line *)

(** [int(s)] for a string of ASCII characters: blanks around, an optional
    sign, decimal digits with single underscores between them.  (The cap
    that recent interpreters put on the number of digits is left out.) *)
Definition is_space (c : ascii) : bool :=
  let n := nat_of_ascii c in
  (Nat.leb 9 n && Nat.leb n 13) || Nat.eqb n 32.

Fixpoint lstrip (s : list ascii) : list ascii :=
  match s with
  | c :: s' => if is_space c then lstrip s' else s
  | [] => []
  end.

Definition strip (s : list ascii) : list ascii :=
  rev (lstrip (rev (lstrip s))).

Definition digit_of (c : ascii) : option Z :=
  let n := nat_of_ascii c in
  if Nat.leb 48 n && Nat.leb n 57 then Some (Z.of_nat n - 48) else None.

Fixpoint digits (acc : Z) (after_digit : bool) (s : list ascii) : option Z :=
  match s with
  | [] => if after_digit then Some acc else None
  | c :: s' =>
      if Ascii.eqb c "_" then
        if after_digit then digits acc false s' else None
      else
        match digit_of c with
        | Some d => digits (10 * acc + d) true s'
        | None => None
        end
  end.

Definition py_int (s : string) : result Z :=
  let parsed :=
    match strip (list_ascii_of_string s) with
    | c :: r =>
        if Ascii.eqb c "-" then Z.opp <$> digits 0 false r
        else if Ascii.eqb c "+" then digits 0 false r
        else digits 0 false (c :: r)
    | [] => None
    end in
  match parsed with
  | Some z => Return z
  | None => Raise ValueError
  end.

(** The [__main__] block, on [sys.argv]. *)
Definition main (fuel : nat) (argv : list string) : prog unit :=
  if Nat.ltb 1 (length argv) then
    match argv !! 1%nat with
    | Some a1 =>
        if String.eqb a1 "--continuous" then
          interval <- match argv !! 2%nat with
                      | Some a2 => lift (py_int a2)
                      | None => ret 15
                      end ;;
          continuous_update fuel (Some interval)
        else if String.eqb a1 "--help" then
          print (MsgUsage 0) ;;;
          print (MsgUsage 1) ;;;
          print (MsgUsage 2) ;;;
          print (MsgUsage 3) ;;;
          print (MsgUsage 4)
        else ret tt
    | None => ret tt
    end
  else
    update_dashboard_json None ;;; ret tt.

(** ** Vocabulary of the statements *)

(** The document [d] with entry [k] of the dict at [path] set to [x]; [d]
    itself where [path] does not lead to a dict. *)
Fixpoint put_at (path : list string) (k : string) (x : json) (d : json)
  : json :=
  match path with
  | [] =>
      match d with
      | JObj m => JObj (<[k := x]> m)
      | _ => d
      end
  | p :: ps =>
      match d with
      | JObj m =>
          match m !! p with
          | Some sub => JObj (<[p := put_at ps k x sub]> m)
          | None => d
          end
      | _ => d
      end
  end.

Definition is_dict (v : option json) : bool :=
  match v with
  | Some (JObj _) => true
  | _ => false
  end.

(** The part of the data model the supply step relies on: the path
    [trigger_dashboard.exchange_supply_depletion.key_metrics] leads to a
    dict. *)
Definition has_key_metrics (d : json) : bool :=
  is_dict (lookup_path key_metrics_path d).

(** A well-formed dashboard document: the three sections the cycle touches
    are there, and are dicts. *)
Definition well_formed (d : json) : bool :=
  is_dict (lookup_path ["current_market_metrics"] d)
  && is_dict (lookup_path ["metadata"] d)
  && has_key_metrics d.

(** What Python formats with [.4f] and divides by [1e9] without raising. *)
Definition is_number (v : json) : bool :=
  match v with
  | JFloat _ | JBool _ => true
  | JInt z => int_fits_float z
  | _ => false
  end.

Definition numeric (q : snapshot) : bool :=
  is_number (price q) && is_number (price_change_24h q)
  && is_number (market_cap q) && is_number (volume_24h q).

(** What [fetch_xrp_price_data] makes of the outcome of its request. *)
Definition fetch_outcome (h : http_outcome) : result (option snapshot) :=
  match h with
  | HttpInterrupted => Raise KeyboardInterrupt
  | HttpNoConnection | HttpTimedOut => Return None
  | HttpResponse r =>
      match read_quote r with
      | Return q => Return (Some q)
      | _ => Return None
      end
  end.

(** The request is answered or fails (no Ctrl+C), and a snapshot, if there
    is one, holds four numbers. *)
Definition plain_fetch (h : http_outcome) : bool :=
  match fetch_outcome h with
  | Return None => true
  | Return (Some q) => numeric q
  | _ => false
  end.

Definition is_write (e : event) : bool :=
  match e with
  | EvWriteFile _ _ => true
  | _ => false
  end.

Definition is_http (e : event) : bool :=
  match e with
  | EvHttpGet _ _ => true
  | _ => false
  end.

Definition is_print (e : event) : bool :=
  match e with
  | EvPrint _ => true
  | _ => false
  end.

Fixpoint count (p : event -> bool) (l : list event) : nat :=
  match l with
  | [] => O
  | e :: l' => if p e then S (count p l') else count p l'
  end.

(** The lengths of the sleeps in a log, the most recent first. *)
Fixpoint sleep_lengths (l : list event) : list Z :=
  match l with
  | [] => []
  | EvSleep s :: l' => s :: sleep_lengths l'
  | _ :: l' => sleep_lengths l'
  end.

(** The document stored at [path], if the file is there and decodes. *)
Definition stored (w : world) (path : string) : option json :=
  match fs w !! path with
  | Some (JsonText d) => Some d
  | _ => None
  end.

(** The document after the supply step, and after the price step at clock
    reading [now]. *)
Definition supply_doc (d : json) : json :=
  put_at key_metrics_path "total_exchange_supply_xrp" (JStr "8500000000")
    (put_at key_metrics_path "binance_reserves_xrp" (JStr "3600000000") d).

Definition priced_doc (q : snapshot) (now : datetime) (d : json) : json :=
  put_at ["metadata"] "last_updated" (JStr (isoformat now))
    (put_at ["current_market_metrics"] "volume_24h_usd" (volume_24h q)
      (put_at ["current_market_metrics"] "market_cap_usd" (market_cap q)
        (put_at ["current_market_metrics"] "price_change_24h_pct"
           (price_change_24h q)
          (put_at ["current_market_metrics"] "price_usd" (price q) d)))).

(** The document a cycle writes: the price step, if the fetch gave a
    snapshot, then the supply step. *)
Definition merged_doc (o : option snapshot) (now : datetime) (d : json)
  : json :=
  supply_doc (match o with Some q => priced_doc q now d | None => d end).

(** The price step goes through: nothing to do, or four numbers to store
    in a document that has the two sections for them. *)
Definition price_ready (o : option snapshot) (d : json) : bool :=
  match o with
  | Some q => numeric q && is_dict (lookup_path ["current_market_metrics"] d)
              && is_dict (lookup_path ["metadata"] d)
  | None => true
  end.

Definition mergeable (o : option snapshot) (d : json) : bool :=
  price_ready o d && has_key_metrics d.


(** The two assignments of the supply step on their own. *)
Definition supply_result (d : json) : result json :=
  rbind (assign_at key_metrics_path "binance_reserves_xrp"
           (JStr "3600000000") d) (fun d1 =>
  assign_at key_metrics_path "total_exchange_supply_xrp"
    (JStr "8500000000") d1).

(** The world once the header is printed. *)
Definition opened (en : env) (w : world) : world :=
  mk_world (fs w)
    (EvPrint MsgRule :: EvPrint (MsgHeader (clock en (clock_reads w)))
     :: EvPrint MsgRule :: log w)
    (S (clock_reads w)) (http_calls w) (sleeps w).

(** The failures of the price fetch: no network, no answer in time, a
    status that [raise_for_status] rejects (4xx, 5xx), a body that
    [response.json()] does not decode (it is not JSON, or the decoder
    refuses it), a body in which one of the four values is not found under
    [ripple]. *)
Definition quote_keys : list string :=
  ["usd"; "usd_24h_change"; "usd_market_cap"; "usd_24h_vol"].

Inductive fetch_failure : http_outcome -> Prop :=
  | ff_network : fetch_failure HttpNoConnection
  | ff_timeout : fetch_failure HttpTimedOut
  | ff_status r :
      400 <= status_code r < 600 -> fetch_failure (HttpResponse r)
  | ff_not_json r :
      body r = None -> fetch_failure (HttpResponse r)
  | ff_missing_key r data k :
      body r = Some data -> In k quote_keys ->
      lookup_path ["ripple"; k] data = None ->
      fetch_failure (HttpResponse r).


(** The events other than printing. *)
Definition effects (l : list event) : list event :=
  List.filter (fun e => negb (is_print e)) l.

(** Two paths part ways: at some depth they name different keys, having
    agreed before.  Neither then leads to a field above, at or below the
    field the other leads to. *)
Fixpoint diverge (a b : list string) : bool :=
  match a, b with
  | x :: a', y :: b' => if String.eqb x y then diverge a' b' else true
  | _, _ => false
  end.

(** A program is quiet when it leaves every file as it is. *)
Definition quiet {A : Type} (c : prog A) : Prop :=
  forall en w,
    fs (fst (c en w)) = fs w
    /\ count is_write (log (fst (c en w))) = count is_write (log w).

(** It writes last when, unless it returns [True], it has been quiet. *)
Definition writes_last (c : prog bool) : Prop :=
  forall en w,
    snd (c en w) <> Return true ->
    fs (fst (c en w)) = fs w
    /\ count is_write (log (fst (c en w))) = count is_write (log w).

(** ** Sample data *)

Definition obj (l : list (string * json)) : json := JObj (list_to_map l).

(** 3.0, 3.15, 1.2, 1.7e11 and 4.8e9 as doubles. *)
Definition f_3_00 : json := JFloat (S754_finite false 6755399441055744 (-51)).
Definition f_3_15 : json := JFloat (S754_finite false 7093169413108531 (-51)).
Definition f_1_2 : json := JFloat (S754_finite false 5404319552844595 (-52)).
Definition f_1_7e11 : json := JFloat (S754_finite false 5570560000000000 (-15)).
Definition f_4_8e9 : json := JFloat (S754_finite false 5033164800000000 (-20)).

Definition sample_doc_stamped (stamp : string) : json :=
  obj [("metadata",
        obj [("last_updated", JStr stamp); ("version", JStr "1.0")]);
       ("current_market_metrics",
        obj [("price_usd", f_3_00);
             ("price_change_24h_pct", JFloat (S754_zero false));
             ("market_cap_usd", JInt 160000000000);
             ("volume_24h_usd", JInt 4000000000)]);
       ("trigger_dashboard",
        obj [("exchange_supply_depletion",
              obj [("status", JStr "watch");
                   ("key_metrics",
                    obj [("binance_reserves_xrp", JStr "3800000000");
                         ("total_exchange_supply_xrp", JStr "9000000000")])])]);
       ("simulation_models", JArr [JStr "base"; JStr "bull"])].

Definition sample_doc : json := sample_doc_stamped "2025-01-01T00:00:00".



Definition sample_quote : json :=
  obj [("ripple",
        obj [("usd", f_3_15); ("usd_24h_change", f_1_2);
             ("usd_market_cap", f_1_7e11); ("usd_24h_vol", f_4_8e9)])].

Definition sample_snapshot : snapshot :=
  {| price := f_3_15; price_change_24h := f_1_2;
     market_cap := f_1_7e11; volume_24h := f_4_8e9 |}.

(** 7 March 2025, 09:05, the seconds counting the readings. *)
Definition sample_clock (n : nat) : datetime := mk_datetime 2025 3 7 9 5 n 0.

(** Ctrl+C arrives during the second sleep. *)
Definition sample_wake (n : nat) : sleep_outcome :=
  if Nat.ltb n 1 then Slept else SleepInterrupted.

Definition env_up : env :=
  mk_env sample_clock
    (fun _ => HttpResponse (mk_response 200 (Some sample_quote))) sample_wake.

Definition env_down : env :=
  mk_env sample_clock (fun _ => HttpTimedOut) sample_wake.

(** A response that lacks the 24h volume. *)
Definition short_quote : json :=
  obj [("ripple",
        obj [("usd", f_3_15); ("usd_24h_change", f_1_2);
             ("usd_market_cap", f_1_7e11)])].

Definition env_short : env :=
  mk_env sample_clock
    (fun _ => HttpResponse (mk_response 200 (Some short_quote))) sample_wake.

Definition env_404 : env :=
  mk_env sample_clock (fun _ => HttpResponse (mk_response 404 None))
    sample_wake.

Definition world_with (content : option file) : world :=
  mk_world
    (match content with
     | Some c => {[ default_filename := c ]}
     | None => ∅
     end) [] 0 0 0.

Definition sample_world : world := world_with (Some (JsonText sample_doc)).
Definition garbled_world : world := world_with (Some Garbled).
Definition empty_world : world := world_with None.

(** The field at [path] of the document stored in [file]. *)
Definition stored_field (w : world) (file : string) (path : list string)
  : option json :=
  match stored w file with
  | Some d => lookup_path path d
  | None => None
  end.

(** ** Vocabulary of the further properties *)

(** The four format checks of lines 77 to 80, in their order. *)
Definition format_checks (q : snapshot) : result unit :=
  rbind (py_format_f (price q)) (fun _ =>
  rbind (py_format_f (price_change_24h q)) (fun _ =>
  rbind (py_truediv_1e9 (market_cap q)) (fun _ =>
  py_truediv_1e9 (volume_24h q)))).

(** A program that leaves every file but [f] as it is. *)
Definition keeps_other_files {A : Type} (f : string) (c : prog A) : Prop :=
  forall en w p, p <> f -> fs (fst (c en w)) !! p = fs w !! p.

(** The world once [continuous_update] has printed its two opening
    lines. *)
Definition started (iv : Z) (w : world) : world :=
  mk_world (fs w)
    (EvPrint MsgPressCtrlC :: EvPrint (MsgStarting iv) :: log w)
    (clock_reads w) (http_calls w) (sleeps w).

(** The fields a cycle assigns: five in the price step, two in the supply
    step. *)
Definition price_leaves : list (list string) :=
  [["current_market_metrics"; "price_usd"];
   ["current_market_metrics"; "price_change_24h_pct"];
   ["current_market_metrics"; "market_cap_usd"];
   ["current_market_metrics"; "volume_24h_usd"];
   ["metadata"; "last_updated"]].

Definition supply_leaves : list (list string) :=
  [(key_metrics_path ++ ["binance_reserves_xrp"])%list;
   (key_metrics_path ++ ["total_exchange_supply_xrp"])%list].

(** [q] parts ways with every path of [ls]. *)
Definition away_from (ls : list (list string)) (q : list string) : bool :=
  forallb (diverge q) ls.

Definition is_object (d : json) : bool :=
  match d with
  | JObj _ => true
  | _ => false
  end.

(** More sample data: a response whose price is [null], a request cut
    short by Ctrl+C, a store that holds a JSON array. *)
Definition null_quote : json :=
  obj [("ripple",
        obj [("usd", JNull); ("usd_24h_change", f_1_2);
             ("usd_market_cap", f_1_7e11); ("usd_24h_vol", f_4_8e9)])].

Definition env_null : env :=
  mk_env sample_clock
    (fun _ => HttpResponse (mk_response 200 (Some null_quote))) sample_wake.

Definition env_interrupted : env :=
  mk_env sample_clock (fun _ => HttpInterrupted) sample_wake.

Definition array_world : world := world_with (Some (JsonText (JArr []))).

(** The lengths in seconds that [time.sleep] converts on every platform
    (the tightest limit is 2^32 milliseconds), and the bound on the
    integers whose decimal form [int] reads under the default limit of
    4300 digits. *)
Definition sleep_limit : Z := 4294967.
Definition int_str_limit : Z := 10 ^ 4300.





(** A store beside another file. *)
Definition shared_world : world :=
  mk_world
    (<["notes.txt" := Garbled]> {[ default_filename := JsonText sample_doc ]})
    [] 0 0 0.

(** ** Assignments through a path *)

Lemma is_dict_Some v : is_dict v = true -> exists m, v = Some (JObj m).
Proof.
  destruct v as [[]|]; simpl; try discriminate. intros _. eauto.
Qed.

Lemma assign_at_put path k x d m :
  lookup_path path d = Some (JObj m) ->
  assign_at path k x d = Return (put_at path k x d).
Proof.
  revert d. induction path as [|p ps IH]; intros d H.
  - simpl in H. injection H as ->. reflexivity.
  - destruct d; try discriminate. simpl in *.
    destruct (m0 !! p) as [sub|] eqn:E; [|discriminate].
    simpl. rewrite (IH _ H). reflexivity.
Qed.

Lemma assign_at_Return path k x d d' :
  assign_at path k x d = Return d' ->
  is_dict (lookup_path path d) = true /\ d' = put_at path k x d.
Proof.
  revert d d'. induction path as [|p ps IH]; intros d d' H.
  - destruct d; try discriminate. injection H as <-. split; reflexivity.
  - destruct d; try discriminate. cbn [assign_at py_getitem] in H.
    cbn [lookup_path put_at].
    destruct (m !! p) as [sub|]; [|discriminate]. cbn [rbind] in H.
    destruct (assign_at ps k x sub) as [sub'| |] eqn:E; try discriminate.
    apply IH in E as [Hd ->]. injection H as <-. split; [exact Hd|reflexivity].
Qed.


Lemma lookup_put_same path k x d m :
  lookup_path path d = Some (JObj m) ->
  lookup_path path (put_at path k x d) = Some (JObj (<[k := x]> m)).
Proof.
  revert d. induction path as [|p ps IH]; intros d H.
  - simpl in H. injection H as ->. reflexivity.
  - destruct d; try discriminate. simpl in *.
    destruct (m0 !! p) as [sub|] eqn:E; [|discriminate].
    simpl. rewrite lookup_insert_eq. auto.
Qed.

Lemma is_dict_put_same path k x d :
  is_dict (lookup_path path d) = true ->
  is_dict (lookup_path path (put_at path k x d)) = true.
Proof.
  intros H. apply is_dict_Some in H as [m Hm].
  rewrite (lookup_put_same _ _ _ _ _ Hm). reflexivity.
Qed.

Lemma lookup_put_other p ps q qs k x d :
  p <> q ->
  lookup_path (q :: qs) (put_at (p :: ps) k x d) = lookup_path (q :: qs) d.
Proof.
  intros Hne. destruct d; try reflexivity. simpl.
  destruct (m !! p) as [sub|] eqn:E; [|reflexivity].
  simpl. rewrite lookup_insert_ne by exact Hne. reflexivity.
Qed.


Lemma put_at_id path k x d m :
  lookup_path path d = Some (JObj m) -> m !! k = Some x ->
  put_at path k x d = d.
Proof.
  revert d. induction path as [|p ps IH]; intros d H Hk.
  - simpl in H. injection H as ->. simpl. f_equal. apply insert_id, Hk.
  - destruct d; try discriminate. simpl in *.
    destruct (m0 !! p) as [sub|] eqn:E; [|discriminate].
    rewrite (IH _ H Hk). f_equal. apply insert_id, E.
Qed.


Lemma lookup_put_diverge path k x : forall q d,
  diverge q (path ++ [k]) = true ->
  lookup_path q (put_at path k x d) = lookup_path q d.
Proof.
  induction path as [|p ps IH]; intros q d H.
  - destruct q as [|y q]; [discriminate|]. cbn [app diverge] in H.
    destruct (String.eqb_spec y k) as [->|Hne].
    { destruct q; discriminate. }
    destruct d; try reflexivity. cbn [put_at lookup_path].
    rewrite lookup_insert_ne by congruence. reflexivity.
  - destruct q as [|y q]; [discriminate|]. cbn [app diverge] in H.
    destruct d; try reflexivity. cbn [put_at].
    destruct (m !! p) as [sub|] eqn:E; [|reflexivity].
    cbn [lookup_path].
    destruct (String.eqb_spec y p) as [->|Hne].
    + rewrite lookup_insert_eq, E. apply IH, H.
    + rewrite lookup_insert_ne by congruence. reflexivity.
Qed.

(** ** The documents a cycle stores *)

Lemma lookup_supply_other q qs d :
  q <> "trigger_dashboard" ->
  lookup_path (q :: qs) (supply_doc d) = lookup_path (q :: qs) d.
Proof.
  intros H. unfold supply_doc, key_metrics_path.
  rewrite !lookup_put_other by congruence. reflexivity.
Qed.

Lemma lookup_supply_key_metrics d km :
  lookup_path key_metrics_path d = Some (JObj km) ->
  lookup_path key_metrics_path (supply_doc d) =
    Some (JObj (<["total_exchange_supply_xrp" := JStr "8500000000"]>
                 (<["binance_reserves_xrp" := JStr "3600000000"]> km))).
Proof.
  intros H. unfold supply_doc.
  apply lookup_put_same, lookup_put_same, H.
Qed.

Lemma supply_doc_elsewhere q d :
  diverge q (key_metrics_path ++ ["binance_reserves_xrp"]) = true ->
  diverge q (key_metrics_path ++ ["total_exchange_supply_xrp"]) = true ->
  lookup_path q (supply_doc d) = lookup_path q d.
Proof.
  intros H1 H2. unfold supply_doc.
  rewrite (lookup_put_diverge _ _ _ _ _ H2).
  apply (lookup_put_diverge _ _ _ _ _ H1).
Qed.

Lemma supply_doc_fixpoint d km :
  lookup_path key_metrics_path d = Some (JObj km) ->
  supply_doc d = d <->
  km !! "binance_reserves_xrp" = Some (JStr "3600000000")
  /\ km !! "total_exchange_supply_xrp" = Some (JStr "8500000000").
Proof.
  intros Hk. split.
  - intros Heq.
    pose proof (lookup_supply_key_metrics _ _ Hk) as H.
    rewrite Heq, Hk in H. injection H as H.
    split.
    + rewrite H at 1. rewrite lookup_insert_ne by discriminate.
      apply lookup_insert_eq.
    + rewrite H at 1. apply lookup_insert_eq.
  - intros [Hb Ht]. unfold supply_doc.
    rewrite (put_at_id _ _ _ d km Hk Hb).
    apply (put_at_id _ _ _ d km Hk Ht).
Qed.

Lemma lookup_priced_other p ps q now d :
  p <> "current_market_metrics" -> p <> "metadata" ->
  lookup_path (p :: ps) (priced_doc q now d) = lookup_path (p :: ps) d.
Proof.
  intros H1 H2. unfold priced_doc.
  rewrite !lookup_put_other by congruence. reflexivity.
Qed.

Lemma lookup_priced_metrics q now d cmm :
  lookup_path ["current_market_metrics"] d = Some (JObj cmm) ->
  lookup_path ["current_market_metrics"] (priced_doc q now d) =
    Some (JObj (<["volume_24h_usd" := volume_24h q]>
                 (<["market_cap_usd" := market_cap q]>
                   (<["price_change_24h_pct" := price_change_24h q]>
                     (<["price_usd" := price q]> cmm))))).
Proof.
  intros H. unfold priced_doc.
  rewrite lookup_put_other by discriminate.
  do 4 apply lookup_put_same. exact H.
Qed.

Lemma lookup_priced_metadata q now d md :
  lookup_path ["metadata"] d = Some (JObj md) ->
  lookup_path ["metadata"] (priced_doc q now d) =
    Some (JObj (<["last_updated" := JStr (isoformat now)]> md)).
Proof.
  intros H. unfold priced_doc. apply lookup_put_same.
  rewrite !lookup_put_other by discriminate. exact H.
Qed.

Lemma has_key_metrics_priced q now d :
  has_key_metrics (priced_doc q now d) = has_key_metrics d.
Proof.
  unfold has_key_metrics, priced_doc, key_metrics_path.
  rewrite !lookup_put_other by discriminate. reflexivity.
Qed.





Lemma well_formed_supply d :
  well_formed d = true -> well_formed (supply_doc d) = true.
Proof.
  unfold well_formed, has_key_metrics. intros H.
  apply andb_prop in H as [H Hk]. apply andb_prop in H as [Hc Hm].
  rewrite !lookup_supply_other by discriminate. rewrite Hc, Hm.
  apply is_dict_Some in Hk as [km Hk].
  rewrite (lookup_supply_key_metrics _ _ Hk). reflexivity.
Qed.

Lemma well_formed_priced q now d :
  well_formed d = true -> well_formed (priced_doc q now d) = true.
Proof.
  unfold well_formed, has_key_metrics. intros H.
  apply andb_prop in H as [H Hk]. apply andb_prop in H as [Hc Hm].
  apply is_dict_Some in Hc as [cmm Hc]. apply is_dict_Some in Hm as [md Hm].
  rewrite (lookup_priced_metrics _ _ _ _ Hc).
  rewrite (lookup_priced_metadata _ _ _ _ Hm).
  unfold key_metrics_path. rewrite lookup_priced_other by discriminate.
  exact Hk.
Qed.

Lemma well_formed_merged o now d :
  well_formed d = true -> well_formed (merged_doc o now d) = true.
Proof.
  intros H. unfold merged_doc. apply well_formed_supply.
  destruct o; [apply well_formed_priced|]; exact H.
Qed.

Lemma stored_differs w file path d :
  stored_field w file path <> lookup_path path d -> stored w file <> Some d.
Proof.
  intros H E. apply H. unfold stored_field. rewrite E. reflexivity.
Qed.

(** ** Logs *)

Lemma count_app p (a b : list event) :
  count p (a ++ b)%list = (count p a + count p b)%nat.
Proof.
  induction a as [|e a IH]; cbn [app count]; [reflexivity|].
  destruct (p e); lia.
Qed.

Lemma sleep_lengths_app (a b : list event) :
  sleep_lengths (a ++ b)%list = (sleep_lengths a ++ sleep_lengths b)%list.
Proof.
  induction a as [|e a IH]; [reflexivity|].
  destruct e; cbn [app sleep_lengths]; congruence.
Qed.

(** Printing is neither a write, nor a request, nor a sleep. *)
Lemma prints_no_write lg :
  forallb is_print lg = true ->
  count is_write lg = 0%nat /\ count is_http lg = 0%nat
  /\ sleep_lengths lg = [].
Proof.
  induction lg as [|e lg IH]; [auto|].
  destruct e; try discriminate. exact IH.
Qed.

Lemma effects_app (a b : list event) :
  effects (a ++ b)%list = (effects a ++ effects b)%list.
Proof. apply List.filter_app. Qed.

Lemma effects_prints lg : forallb is_print lg = true -> effects lg = [].
Proof.
  induction lg as [|e lg IH]; [reflexivity|]. cbn [forallb effects List.filter].
  intros H. apply andb_prop in H as [He Hl]. rewrite He. cbn [negb].
  apply IH, Hl.
Qed.

(** ** The fetch *)

(** Whatever goes wrong in reading the response is an [Exception]. *)
Lemma read_quote_not_interrupt r :
  match read_quote r with
  | Return _ => True
  | Raise e => is_Exception e = true
  | Unfinished => False
  end.
Proof.
  assert (G : forall v k,
            match py_getitem v k with
            | Return _ => True
            | Raise e => is_Exception e = true
            | Unfinished => False
            end).
  { intros v k. destruct v; cbn [py_getitem]; auto.
    destruct (m !! k); cbn [is_Exception]; auto. }
  unfold read_quote, raise_for_status, response_json.
  destruct ((400 <=? status_code r) && (status_code r <? 600));
    [reflexivity|].
  destruct (body r) as [data|]; [|reflexivity]. cbn [rbind].
  pose proof (G data "ripple") as G0.
  destruct (py_getitem data "ripple") as [rp| |]; cbn [rbind]; auto.
  pose proof (G rp "usd") as G1.
  destruct (py_getitem rp "usd"); cbn [rbind]; auto.
  pose proof (G rp "usd_24h_change") as G2.
  destruct (py_getitem rp "usd_24h_change"); cbn [rbind]; auto.
  pose proof (G rp "usd_market_cap") as G3.
  destruct (py_getitem rp "usd_market_cap"); cbn [rbind]; auto.
  pose proof (G rp "usd_24h_vol") as G4.
  destruct (py_getitem rp "usd_24h_vol"); cbn [rbind]; auto.
Qed.

(** A snapshot comes from a response whose status passes and whose body
    holds the four values under [ripple]. *)
Lemma read_quote_Return r q :
  read_quote r = Return q ->
  (400 <=? status_code r) && (status_code r <? 600) = false
  /\ exists data,
       body r = Some data
       /\ lookup_path ["ripple"; "usd"] data = Some (price q)
       /\ lookup_path ["ripple"; "usd_24h_change"] data
          = Some (price_change_24h q)
       /\ lookup_path ["ripple"; "usd_market_cap"] data
          = Some (market_cap q)
       /\ lookup_path ["ripple"; "usd_24h_vol"] data = Some (volume_24h q).
Proof.
  unfold read_quote, raise_for_status, response_json.
  destruct ((400 <=? status_code r) && (status_code r <? 600));
    [discriminate|].
  destruct (body r) as [data|]; [|discriminate].
  cbn [rbind]. intros H. split; [reflexivity|].
  exists data. split; [reflexivity|].
  destruct data; try discriminate. cbn [py_getitem lookup_path] in *.
  destruct (m !! "ripple") as [rp|]; [|discriminate]. cbn [rbind] in H.
  destruct rp; try discriminate. cbn [py_getitem lookup_path] in *.
  destruct (m0 !! "usd"); [|discriminate]. cbn [rbind] in H.
  destruct (m0 !! "usd_24h_change"); [|discriminate]. cbn [rbind] in H.
  destruct (m0 !! "usd_market_cap"); [|discriminate]. cbn [rbind] in H.
  destruct (m0 !! "usd_24h_vol"); [|discriminate]. cbn [rbind] in H.
  injection H as <-. cbn [price price_change_24h market_cap volume_24h].
  auto.
Qed.

Lemma fetch_failure_outcome h :
  fetch_failure h -> fetch_outcome h = Return None.
Proof.
  intros [| |r Hs|r Hb|r data k Hb Hk Hl]; try reflexivity;
    unfold fetch_outcome;
    destruct (read_quote r) as [q| |] eqn:E; try reflexivity;
    exfalso;
    apply read_quote_Return in E as (Hst & data' & Hb' & H1 & H2 & H3 & H4).
  - apply andb_false_iff in Hst as [Hst|Hst]; lia.
  - congruence.
  - rewrite Hb in Hb'. injection Hb' as <-.
    destruct Hk as [<-|[<-|[<-|[<-|[]]]]]; congruence.
Qed.

(** The fetch as a whole: one request, then at most an error line; it
    returns what [fetch_outcome] says. *)
Lemma fetch_run en w :
  exists lg,
    fetch_xrp_price_data en w =
      (mk_world (fs w) (lg ++ EvHttpGet price_url 10 :: log w)%list
         (clock_reads w) (S (http_calls w)) (sleeps w),
       fetch_outcome (http en (http_calls w)))
    /\ forallb is_print lg = true.
Proof.
  unfold fetch_xrp_price_data, try_except, bind, requests_get, fetch_outcome,
    lift, ret, print, emit.
  destruct (http en (http_calls w)) as [| | |r]; cbn [is_Exception].
  - exists []. split; reflexivity.
  - eexists [_]. split; reflexivity.
  - eexists [_]. split; reflexivity.
  - pose proof (read_quote_not_interrupt r) as Hq.
    destruct (read_quote r) as [q|e|].
    + exists []. split; reflexivity.
    + rewrite Hq. eexists [_]. split; reflexivity.
    + contradiction.
Qed.

Lemma plain_fetch_mergeable h d :
  plain_fetch h = true -> well_formed d = true ->
  exists o, fetch_outcome h = Return o /\ mergeable o d = true.
Proof.
  unfold plain_fetch, well_formed, mergeable, price_ready. intros Hp Hw.
  apply andb_prop in Hw as [Hw Hk]. apply andb_prop in Hw as [Hc Hm].
  destruct (fetch_outcome h) as [[q|]| |]; try discriminate.
  - exists (Some q). rewrite Hp, Hc, Hm, Hk. auto.
  - exists None. rewrite Hk. auto.
Qed.

(** ** The two merge steps *)

Lemma stub_strings :
  py_str_int (binance_reserves fetch_exchange_supply) = "3600000000"
  /\ py_str_int (total_exchange_supply fetch_exchange_supply) = "8500000000".
Proof. split; reflexivity. Qed.

Lemma is_number_format v : is_number v = true -> py_format_f v = Return tt.
Proof. destruct v; simpl; try discriminate; auto. intros ->. reflexivity. Qed.

Lemma is_number_truediv v : is_number v = true -> py_truediv_1e9 v = Return tt.
Proof. destruct v; simpl; try discriminate; auto. intros ->. reflexivity. Qed.

Lemma supply_result_ok d :
  has_key_metrics d = true -> supply_result d = Return (supply_doc d).
Proof.
  intros H. apply is_dict_Some in H as [km Hkm].
  unfold supply_result, supply_doc.
  rewrite (assign_at_put _ _ _ _ _ Hkm). cbn [rbind].
  apply (assign_at_put _ _ _ _ _ (lookup_put_same _ _ _ _ _ Hkm)).
Qed.


Lemma supply_result_Return d d' :
  supply_result d = Return d' ->
  has_key_metrics d = true /\ d' = supply_doc d.
Proof.
  unfold supply_result, supply_doc, has_key_metrics. intros H.
  destruct (assign_at key_metrics_path "binance_reserves_xrp" _ d)
    as [d1| |] eqn:E; try discriminate.
  apply assign_at_Return in E as [Hd ->]. cbn [rbind] in H.
  apply assign_at_Return in H as [_ ->]. split; [exact Hd|reflexivity].
Qed.

Lemma merge_supply_any d en w :
  merge_supply d en w =
    match supply_result d with
    | Return d' =>
        (mk_world (fs w) (EvPrint (MsgExchangeSupply 8500000000) :: log w)
           (clock_reads w) (http_calls w) (sleeps w), Return d')
    | Raise e => (w, Raise e)
    | Unfinished => (w, Unfinished)
    end.
Proof.
  unfold merge_supply, supply_result. simpl exchange_supply_truthy. cbv iota.
  destruct stub_strings as [-> ->].
  unfold bind, lift, ret, print, emit.
  destruct (assign_at key_metrics_path "binance_reserves_xrp" _ d) as [d1| |];
    [|reflexivity|reflexivity].
  cbn [rbind].
  destruct (assign_at key_metrics_path "total_exchange_supply_xrp" _ d1);
    reflexivity.
Qed.

Lemma merge_supply_run d en w :
  has_key_metrics d = true ->
  merge_supply d en w =
    (mk_world (fs w) (EvPrint (MsgExchangeSupply 8500000000) :: log w)
       (clock_reads w) (http_calls w) (sleeps w),
     Return (supply_doc d)).
Proof.
  intros H. rewrite merge_supply_any, (supply_result_ok _ H). reflexivity.
Qed.

(** The four assignments to [current_market_metrics], in a goal that has
    [merge_price] unfolded. *)
Ltac assign_metrics q Hc :=
  let H1 := fresh "Hc" in
  let H2 := fresh "Hc" in
  let H3 := fresh "Hc" in
  rewrite (assign_at_put _ _ _ _ _ Hc);
  pose proof (lookup_put_same _ "price_usd" (price q) _ _ Hc) as H1;
  rewrite (assign_at_put _ _ _ _ _ H1);
  pose proof (lookup_put_same _ "price_change_24h_pct"
                (price_change_24h q) _ _ H1) as H2;
  rewrite (assign_at_put _ _ _ _ _ H2);
  pose proof (lookup_put_same _ "market_cap_usd" (market_cap q) _ _ H2)
    as H3;
  rewrite (assign_at_put _ _ _ _ _ H3);
  cbv beta iota.

Lemma merge_price_run q d en w :
  is_dict (lookup_path ["current_market_metrics"] d) = true ->
  is_dict (lookup_path ["metadata"] d) = true ->
  numeric q = true ->
  merge_price q d en w =
    (mk_world (fs w)
       (EvPrint (MsgVolume (volume_24h q))
        :: EvPrint (MsgMarketCap (market_cap q))
        :: EvPrint (MsgChange (price_change_24h q))
        :: EvPrint (MsgPrice (price q)) :: log w)
       (S (clock_reads w)) (http_calls w) (sleeps w),
     Return (priced_doc q (clock en (clock_reads w)) d)).
Proof.
  intros Hc Hm Hq.
  apply is_dict_Some in Hc as [cmm Hc]. apply is_dict_Some in Hm as [md Hm].
  unfold numeric in Hq.
  apply andb_prop in Hq as [Hq H4]. apply andb_prop in Hq as [Hq H3].
  apply andb_prop in Hq as [H1 H2].
  unfold merge_price, priced_doc, bind, lift, ret, print, emit, datetime_now.
  assign_metrics q Hc.
  erewrite assign_at_put.
  2:{ rewrite !lookup_put_other by discriminate. exact Hm. }
  rewrite (is_number_format _ H1), (is_number_format _ H2),
    (is_number_truediv _ H3), (is_number_truediv _ H4).
  reflexivity.
Qed.



(** ** Running the update *)

(** The three ways the opening of the file can go. *)
Lemma update_missing filename en w :
  fs w !! default default_filename filename = None ->
  update_dashboard_json filename en w =
    (mk_world (fs w)
       (EvPrint (MsgNotFound (default default_filename filename))
        :: log (opened en w))
       (S (clock_reads w)) (http_calls w) (sleeps w),
     Return false).
Proof.
  intros H.
  unfold update_dashboard_json, bind, try_except, json_load_file,
    print, emit, datetime_now, ret.
  cbn [fs log clock_reads http_calls sleeps]. rewrite H. reflexivity.
Qed.

Lemma update_garbled filename en w :
  fs w !! default default_filename filename = Some Garbled ->
  update_dashboard_json filename en w =
    (mk_world (fs w)
       (EvOpenRead (default default_filename filename)
        :: log (opened en w))
       (S (clock_reads w)) (http_calls w) (sleeps w),
     Raise JSONDecodeError).
Proof.
  intros H.
  unfold update_dashboard_json, bind, try_except, json_load_file,
    print, emit, datetime_now, ret.
  cbn [fs log clock_reads http_calls sleeps]. rewrite H. reflexivity.
Qed.

Lemma update_decoded filename d en w :
  fs w !! default default_filename filename = Some (JsonText d) ->
  update_dashboard_json filename en w =
    update_loaded (default default_filename filename) d en
      (mk_world (fs w)
         (EvOpenRead (default default_filename filename)
          :: log (opened en w))
         (S (clock_reads w)) (http_calls w) (sleeps w)).
Proof.
  intros H.
  unfold update_dashboard_json, bind, try_except, json_load_file,
    print, emit, datetime_now, ret.
  cbn [fs log clock_reads http_calls sleeps]. rewrite H. reflexivity.
Qed.

(** One step of a program: a [print], or the head of a [bind]. *)
Ltac step_print := unfold bind at 1; unfold print at 1, emit at 1.

Ltac step_fetch en lg Hrun Hlg :=
  unfold bind at 1;
  match goal with
  | |- context [fetch_xrp_price_data en ?w1] =>
      destruct (fetch_run en w1) as (lg & Hrun & Hlg)
  end;
  cbn [fs log clock_reads http_calls sleeps] in Hrun;
  rewrite Hrun; clear Hrun.

(** The cycle on a loaded document that merges: it returns [True], having
    made one request and one write. *)
Lemma update_loaded_run f d en w o :
  fetch_outcome (http en (http_calls w)) = Return o ->
  mergeable o d = true ->
  exists lg w',
    update_loaded f d en w = (w', Return true)
    /\ fs w' =
         <[f := JsonText (merged_doc o (clock en (clock_reads w)) d)]> (fs w)
    /\ log w' = (lg ++ log w)%list
    /\ count is_write lg = 1%nat /\ count is_http lg = 1%nat
    /\ sleep_lengths lg = []
    /\ http_calls w' = S (http_calls w) /\ sleeps w' = sleeps w.
Proof.
  intros Ho Hm. unfold mergeable, price_ready in Hm.
  apply andb_prop in Hm as [Hm Hk].
  unfold update_loaded. step_print. step_fetch en lg Hrun Hlg. rewrite Ho.
  destruct (prints_no_write _ Hlg) as (Hw0 & Hh0 & Hs0).
  destruct o as [q|].
  - apply andb_prop in Hm as [Hm Hmd]. apply andb_prop in Hm as [Hq Hc].
    unfold bind at 1. rewrite (merge_price_run _ _ _ _ Hc Hmd Hq).
    step_print. unfold bind at 1.
    rewrite merge_supply_run by (rewrite has_key_metrics_priced; exact Hk).
    unfold bind, json_dump_file, print, emit, ret.
    cbn [fs log clock_reads http_calls sleeps].
    eexists (_ :: _ :: _ :: _ :: _ :: _ :: _ :: _ :: _ :: _
             :: (lg ++ [_; _])%list), _.
    split; [reflexivity|]. cbn [fs log clock_reads http_calls sleeps].
    split; [reflexivity|].
    split; [cbn [app]; rewrite <- app_assoc; reflexivity|].
    cbn [count is_write is_http sleep_lengths].
    rewrite !count_app, sleep_lengths_app, Hw0, Hh0, Hs0.
    cbn [count is_write is_http sleep_lengths app Nat.add]. auto.
  - unfold bind at 1. step_print. unfold ret at 1.
    step_print. unfold bind at 1. rewrite merge_supply_run by exact Hk.
    unfold bind, json_dump_file, print, emit, ret.
    cbn [fs log clock_reads http_calls sleeps].
    eexists (_ :: _ :: _ :: _ :: _ :: _ :: _ :: (lg ++ [_; _])%list), _.
    split; [reflexivity|]. cbn [fs log clock_reads http_calls sleeps].
    split; [reflexivity|].
    split; [cbn [app]; rewrite <- app_assoc; reflexivity|].
    cbn [count is_write is_http sleep_lengths].
    rewrite !count_app, sleep_lengths_app, Hw0, Hh0, Hs0.
    cbn [count is_write is_http sleep_lengths app Nat.add]. auto.
Qed.

(** The cycle after a fetch that gave nothing, whatever the document. *)
Lemma update_loaded_none f d en w :
  fetch_outcome (http en (http_calls w)) = Return None ->
  exists lg, forallb is_print lg = true /\
    update_loaded f d en w =
      let lg1 :=
        (EvPrint MsgSupply :: EvPrint MsgKeeping :: lg
         ++ EvHttpGet price_url 10 :: EvPrint MsgFetching :: log w)%list in
      match supply_result d with
      | Return d' =>
          (mk_world (<[f := JsonText d']> (fs w))
             (EvPrint MsgRule :: EvPrint (MsgFile f) :: EvPrint MsgUpdated
              :: EvWriteFile f d'
              :: EvPrint (MsgExchangeSupply 8500000000) :: lg1)
             (clock_reads w) (S (http_calls w)) (sleeps w), Return true)
      | Raise e =>
          (mk_world (fs w) lg1 (clock_reads w) (S (http_calls w)) (sleeps w),
           Raise e)
      | Unfinished =>
          (mk_world (fs w) lg1 (clock_reads w) (S (http_calls w)) (sleeps w),
           Unfinished)
      end.
Proof.
  intros Ho. unfold update_loaded. step_print. step_fetch en lg Hrun Hlg.
  rewrite Ho. exists lg. split; [exact Hlg|].
  unfold bind at 1. step_print. unfold ret at 1.
  step_print. unfold bind at 1. rewrite merge_supply_any.
  destruct (supply_result d); reflexivity.
Qed.

(** One whole cycle on a document that loads and merges. *)
Lemma update_cycle filename en w d o :
  fs w !! default default_filename filename = Some (JsonText d) ->
  fetch_outcome (http en (http_calls w)) = Return o ->
  mergeable o d = true ->
  exists lg w',
    update_dashboard_json filename en w = (w', Return true)
    /\ fs w' =
         <[default default_filename filename :=
             JsonText (merged_doc o (clock en (S (clock_reads w))) d)]> (fs w)
    /\ log w' = (lg ++ log w)%list
    /\ count is_write lg = 1%nat /\ count is_http lg = 1%nat
    /\ sleep_lengths lg = []
    /\ http_calls w' = S (http_calls w) /\ sleeps w' = sleeps w.
Proof.
  intros Hf Ho Hm. rewrite (update_decoded _ _ _ _ Hf).
  set (f := default default_filename filename).
  set (w1 := mk_world _ _ _ _ _).
  destruct (update_loaded_run f d en w1 o Ho Hm)
    as (lg & w' & Hr & Hfs & Hlog & Hw & Hh & Hs & Hc & Hsl).
  exists (lg ++ [EvOpenRead f; EvPrint MsgRule;
                 EvPrint (MsgHeader (clock en (clock_reads w)));
                 EvPrint MsgRule])%list, w'.
  split; [exact Hr|]. split; [exact Hfs|].
  split; [rewrite Hlog, <- app_assoc; reflexivity|].
  rewrite !count_app, sleep_lengths_app, Hw, Hh, Hs.
  cbn [count is_write is_http sleep_lengths app Nat.add]. auto.
Qed.

(** One cycle of the loop on a well-formed store. *)
Lemma update_cycle_wf en w d :
  fs w !! default_filename = Some (JsonText d) ->
  well_formed d = true ->
  plain_fetch (http en (http_calls w)) = true ->
  exists lg w' d',
    update_dashboard_json None en w = (w', Return true)
    /\ fs w' !! default_filename = Some (JsonText d')
    /\ well_formed d' = true
    /\ log w' = (lg ++ log w)%list
    /\ count is_write lg = 1%nat /\ count is_http lg = 1%nat
    /\ sleep_lengths lg = []
    /\ http_calls w' = S (http_calls w) /\ sleeps w' = sleeps w.
Proof.
  intros Hf Hw Hp.
  destruct (plain_fetch_mergeable _ _ Hp Hw) as (o & Ho & Hm).
  destruct (update_cycle None en w d o Hf Ho Hm)
    as (lg & w' & Hr & Hfs & Hrest).
  exists lg, w', (merged_doc o (clock en (S (clock_reads w))) d).
  split; [exact Hr|]. split.
  { rewrite Hfs. apply lookup_insert_eq. }
  split; [apply well_formed_merged, Hw|]. exact Hrest.
Qed.

(** ** Writing comes last *)

Lemma quiet_ret {A} (a : A) : quiet (ret a).
Proof. intros en w. split; reflexivity. Qed.

Lemma quiet_lift {A} (r : result A) : quiet (lift r).
Proof. intros en w. split; reflexivity. Qed.

Lemma quiet_print m : quiet (print m).
Proof. intros en w. split; reflexivity. Qed.

Lemma quiet_now : quiet datetime_now.
Proof. intros en w. split; reflexivity. Qed.

Lemma quiet_bind {A B} (c : prog A) (k : A -> prog B) :
  quiet c -> (forall a, quiet (k a)) -> quiet (bind c k).
Proof.
  intros Hc Hk en w. unfold bind. specialize (Hc en w).
  destruct (c en w) as [w1 [a|e|]]; cbn [fst snd] in *; try exact Hc.
  destruct (Hk a en w1) as [H1 H2]. destruct Hc as [H3 H4].
  split; congruence.
Qed.

Lemma quiet_try {A} (c : prog A) catches (h : exn -> prog A) :
  quiet c -> (forall e, quiet (h e)) -> quiet (try_except c catches h).
Proof.
  intros Hc Hh en w. unfold try_except. specialize (Hc en w).
  destruct (c en w) as [w1 [a|e|]]; cbn [fst snd] in *; try exact Hc.
  destruct (catches e); [|exact Hc].
  destruct (Hh e en w1) as [H1 H2]. destruct Hc as [H3 H4].
  split; congruence.
Qed.

Lemma quiet_requests_get url t : quiet (requests_get url t).
Proof.
  intros en w. unfold requests_get.
  destruct (http en (http_calls w)); split; reflexivity.
Qed.

Lemma quiet_load f : quiet (json_load_file f).
Proof.
  intros en w. unfold json_load_file.
  destruct (fs w !! f) as [[d|]|]; split; reflexivity.
Qed.

Lemma quiet_fetch : quiet fetch_xrp_price_data.
Proof.
  unfold fetch_xrp_price_data. apply quiet_try.
  - apply quiet_bind; [apply quiet_requests_get|]. intros r.
    apply quiet_bind; [apply quiet_lift|]. intros q. apply quiet_ret.
  - intros e. apply quiet_bind; [apply quiet_print|]. intros _. apply quiet_ret.
Qed.

Ltac quiet_steps :=
  repeat first
    [ apply quiet_ret | apply quiet_lift | apply quiet_print | apply quiet_now
    | apply quiet_bind; [|intros ?] ].

Lemma quiet_merge_price q d : quiet (merge_price q d).
Proof. unfold merge_price. quiet_steps. Qed.

Lemma quiet_merge_supply d : quiet (merge_supply d).
Proof.
  unfold merge_supply. destruct (exchange_supply_truthy _); quiet_steps.
Qed.

Lemma writes_last_quiet (c : prog bool) : quiet c -> writes_last c.
Proof. intros H en w _. apply H. Qed.

Lemma writes_last_bind {A} (c : prog A) (k : A -> prog bool) :
  quiet c -> (forall a, writes_last (k a)) -> writes_last (bind c k).
Proof.
  intros Hc Hk en w. unfold bind. specialize (Hc en w).
  destruct (c en w) as [w1 [a|e|]]; cbn [fst snd] in *;
    try (intros _; exact Hc).
  intros Hr. destruct (Hk a en w1 Hr) as [H1 H2]. destruct Hc as [H3 H4].
  split; congruence.
Qed.

Lemma writes_last_update_loaded f d : writes_last (update_loaded f d).
Proof.
  unfold update_loaded.
  apply writes_last_bind; [apply quiet_print|]. intros _.
  apply writes_last_bind; [apply quiet_fetch|]. intros o.
  apply writes_last_bind.
  { destruct o; [apply quiet_merge_price|quiet_steps]. }
  intros d1.
  apply writes_last_bind; [apply quiet_print|]. intros _.
  apply writes_last_bind; [apply quiet_merge_supply|]. intros d2.
  intros en w Hr. exfalso. apply Hr. reflexivity.
Qed.

Lemma writes_last_update filename :
  writes_last (update_dashboard_json filename).
Proof.
  unfold update_dashboard_json.
  apply writes_last_bind; [apply quiet_print|]. intros _.
  apply writes_last_bind; [apply quiet_now|]. intros now.
  apply writes_last_bind; [apply quiet_print|]. intros _.
  apply writes_last_bind; [apply quiet_print|]. intros _.
  apply writes_last_bind.
  { apply quiet_try; [|intros e]; quiet_steps. apply quiet_load. }
  intros [b|d].
  - apply writes_last_quiet, quiet_ret.
  - apply writes_last_update_loaded.
Qed.

(** What a cycle that returns [True] has stored: the outcome of the supply
    step on some document. *)
Lemma update_true_stored filename en w :
  snd (update_dashboard_json filename en w) = Return true ->
  exists d1,
    has_key_metrics d1 = true
    /\ fs (fst (update_dashboard_json filename en w)) =
         <[default default_filename filename := JsonText (supply_doc d1)]>
           (fs w).
Proof.
  destruct (update_dashboard_json filename en w) as [w' res] eqn:E.
  cbn [fst snd]. intros ->.
  destruct (fs w !! default default_filename filename) as [[d|]|] eqn:Hf.
  2:{ rewrite (update_garbled _ _ _ Hf) in E. discriminate. }
  2:{ rewrite (update_missing _ _ _ Hf) in E. discriminate. }
  rewrite (update_decoded _ _ _ _ Hf) in E.
  set (f := default default_filename filename) in *.
  unfold update_loaded in E.
  unfold bind at 1 in E. unfold print at 1, emit at 1 in E.
  unfold bind at 1 in E.
  match type of E with
  | context [fetch_xrp_price_data en ?w1] =>
      destruct (fetch_run en w1) as (lg & Hrun & _)
  end.
  cbn [fs log clock_reads http_calls sleeps] in E, Hrun.
  rewrite Hrun in E. clear Hrun.
  destruct (fetch_outcome _) as [o| |]; [|discriminate|discriminate].
  unfold bind at 1 in E.
  match type of E with
  | context [match o with Some pd => _ | None => ?k end en ?w2] =>
      set (step := match o with Some pd => merge_price pd d | None => k end)
        in E;
      assert (Hq : quiet step)
        by (subst step; destruct o; [apply quiet_merge_price|];
            apply quiet_bind; [apply quiet_print|]; intros _;
            apply quiet_ret);
      specialize (Hq en w2);
      destruct (step en w2) as [w3 [d1| |]]; [|discriminate|discriminate]
  end.
  cbn [fst fs] in Hq. destruct Hq as [Hfs3 _].
  unfold bind at 1 in E. unfold print at 1, emit at 1 in E.
  unfold bind at 1 in E. rewrite merge_supply_any in E.
  cbn [fs log clock_reads http_calls sleeps] in E.
  destruct (supply_result d1) as [d2| |] eqn:Hs; [|discriminate|discriminate].
  apply supply_result_Return in Hs as [Hk ->].
  exists d1. split; [exact Hk|].
  unfold bind, json_dump_file, print, emit, ret in E.
  cbn [fs log clock_reads http_calls sleeps] in E.
  injection E as <-. cbn [fs]. rewrite Hfs3. reflexivity.
Qed.

(** ** What a completed cycle stores *)

Lemma merge_price_Return q d en w w' d1 :
  merge_price q d en w = (w', Return d1) ->
  d1 = priced_doc q (clock en (clock_reads w)) d.
Proof.
  unfold merge_price, priced_doc, bind, lift, datetime_now.
  destruct (assign_at _ "price_usd" _ d) as [a1| |] eqn:E1;
    [|discriminate|discriminate].
  apply assign_at_Return in E1 as [_ ->].
  destruct (assign_at _ "price_change_24h_pct" _ _) as [a2| |] eqn:E2;
    [|discriminate|discriminate].
  apply assign_at_Return in E2 as [_ ->].
  destruct (assign_at _ "market_cap_usd" _ _) as [a3| |] eqn:E3;
    [|discriminate|discriminate].
  apply assign_at_Return in E3 as [_ ->].
  destruct (assign_at _ "volume_24h_usd" _ _) as [a4| |] eqn:E4;
    [|discriminate|discriminate].
  apply assign_at_Return in E4 as [_ ->].
  cbn [fs log clock_reads http_calls sleeps].
  destruct (assign_at _ "last_updated" _ _) as [a5| |] eqn:E5;
    [|discriminate|discriminate].
  apply assign_at_Return in E5 as [_ ->].
  destruct (py_format_f (price q)) as [[]| |]; try discriminate.
  destruct (py_format_f (price_change_24h q)) as [[]| |]; try discriminate.
  destruct (py_truediv_1e9 (market_cap q)) as [[]| |]; try discriminate.
  destruct (py_truediv_1e9 (volume_24h q)) as [[]| |]; try discriminate.
  unfold ret, print, emit. cbn [fs log clock_reads http_calls sleeps].
  intros H. injection H as _ <-. reflexivity.
Qed.

Lemma format_is_number v : py_format_f v = Return tt -> is_number v = true.
Proof.
  destruct v; simpl; try discriminate; auto.
  destruct (int_fits_float _); [reflexivity|discriminate].
Qed.

Lemma truediv_is_number v :
  py_truediv_1e9 v = Return tt -> is_number v = true.
Proof.
  destruct v; simpl; try discriminate; auto.
  destruct (int_fits_float _); [reflexivity|discriminate].
Qed.

(** The price step returns only on two sections that are objects and four
    numbers. *)
Lemma merge_price_ready q d en w w' d1 :
  merge_price q d en w = (w', Return d1) -> price_ready (Some q) d = true.
Proof.
  unfold merge_price, bind, lift, datetime_now.
  destruct (assign_at _ "price_usd" _ d) as [a1| |] eqn:E1;
    [|discriminate|discriminate].
  apply assign_at_Return in E1 as [Hc ->].
  destruct (assign_at _ "price_change_24h_pct" _ _) as [a2| |] eqn:E2;
    [|discriminate|discriminate].
  apply assign_at_Return in E2 as [_ ->].
  destruct (assign_at _ "market_cap_usd" _ _) as [a3| |] eqn:E3;
    [|discriminate|discriminate].
  apply assign_at_Return in E3 as [_ ->].
  destruct (assign_at _ "volume_24h_usd" _ _) as [a4| |] eqn:E4;
    [|discriminate|discriminate].
  apply assign_at_Return in E4 as [_ ->].
  cbn [fs log clock_reads http_calls sleeps].
  destruct (assign_at _ "last_updated" _ _) as [a5| |] eqn:E5;
    [|discriminate|discriminate].
  apply assign_at_Return in E5 as [Hm _].
  rewrite !lookup_put_other in Hm by discriminate.
  destruct (py_format_f (price q)) as [[]| |] eqn:F1; try discriminate.
  destruct (py_format_f (price_change_24h q)) as [[]| |] eqn:F2;
    try discriminate.
  destruct (py_truediv_1e9 (market_cap q)) as [[]| |] eqn:F3;
    try discriminate.
  destruct (py_truediv_1e9 (volume_24h q)) as [[]| |] eqn:F4;
    try discriminate.
  intros _. unfold price_ready, numeric.
  rewrite (format_is_number _ F1), (format_is_number _ F2),
    (truediv_is_number _ F3), (truediv_is_number _ F4), Hc, Hm.
  reflexivity.
Qed.

(** A cycle that returns [True] on a document [d] was given an outcome of
    the fetch with which [d] can be merged, and has stored [d] merged with
    it. *)
Lemma update_true_inv filename en w d :
  fs w !! default default_filename filename = Some (JsonText d) ->
  snd (update_dashboard_json filename en w) = Return true ->
  exists o,
    fetch_outcome (http en (http_calls w)) = Return o
    /\ mergeable o d = true
    /\ fs (fst (update_dashboard_json filename en w)) =
         <[default default_filename filename :=
             JsonText (merged_doc o (clock en (S (clock_reads w))) d)]>
           (fs w).
Proof.
  intros Hf.
  destruct (update_dashboard_json filename en w) as [w' res] eqn:E.
  cbn [fst snd]. intros ->.
  rewrite (update_decoded _ _ _ _ Hf) in E.
  set (f := default default_filename filename) in *.
  unfold update_loaded in E.
  unfold bind at 1 in E. unfold print at 1, emit at 1 in E.
  unfold bind at 1 in E.
  match type of E with
  | context [fetch_xrp_price_data en ?w1] =>
      destruct (fetch_run en w1) as (lg & Hrun & _)
  end.
  cbn [fs log clock_reads http_calls sleeps] in E, Hrun.
  rewrite Hrun in E. clear Hrun.
  destruct (fetch_outcome _) as [o| |]; [|discriminate|discriminate].
  exists o. split; [reflexivity|].
  unfold bind at 1 in E.
  assert (Hstep : exists w3 d1,
            d1 = match o with
                 | Some q => priced_doc q (clock en (S (clock_reads w))) d
                 | None => d
                 end
            /\ price_ready o d = true
            /\ fs w3 = fs w
            /\ (let (w'0, r) := merge_supply d1 en
                   (mk_world (fs w3) (EvPrint MsgSupply :: log w3)
                      (clock_reads w3) (http_calls w3) (sleeps w3)) in
                match r with
                | Return a =>
                    (json_dump_file f a;;;
                     print MsgUpdated;;; print (MsgFile f);;;
                     print MsgRule;;; ret true) en w'0
                | Raise e => (w'0, Raise e)
                | Unfinished => (w'0, Unfinished)
                end) = (w', Return true)).
  { destruct o as [q|].
    - match type of E with
      | context [merge_price q d en ?w2] =>
          pose proof (quiet_merge_price q d en w2) as [Hq _];
          destruct (merge_price q d en w2) as [w3 [d1| |]] eqn:Em;
            [|discriminate|discriminate]
      end.
      pose proof (merge_price_ready _ _ _ _ _ _ Em) as Hready.
      apply merge_price_Return in Em. cbn [clock_reads] in Em.
      cbn [fst fs] in Hq.
      exists w3, d1. split; [exact Em|]. split; [exact Hready|].
      split; [exact Hq|].
      unfold bind at 1 in E. unfold print at 1, emit at 1 in E.
      unfold bind at 1 in E. exact E.
    - unfold bind at 1 in E. unfold print at 1, emit at 1 in E.
      unfold ret at 1 in E.
      eexists _, d. split; [reflexivity|]. split; [reflexivity|].
      split; [|
        unfold bind at 1 in E; unfold print at 1, emit at 1 in E;
        unfold bind at 1 in E; exact E].
      reflexivity. }
  destruct Hstep as (w3 & d1 & Hd1 & Hready & Hfs3 & E').
  rewrite merge_supply_any in E'.
  cbn [fs log clock_reads http_calls sleeps] in E'.
  destruct (supply_result d1) as [d2| |] eqn:Hs; [|discriminate|discriminate].
  apply supply_result_Return in Hs as [Hk ->].
  split.
  { unfold mergeable. rewrite Hready. rewrite Hd1 in Hk.
    destruct o as [q|]; [rewrite has_key_metrics_priced in Hk|];
      rewrite Hk; reflexivity. }
  unfold bind, json_dump_file, print, emit, ret in E'.
  cbn [fs log clock_reads http_calls sleeps] in E'.
  injection E' as <-. cbn [fs]. rewrite Hfs3. unfold merged_doc.
  rewrite <- Hd1. reflexivity.
Qed.

(** A cycle that returns [True] on a document [d] has stored [d] merged
    with what the fetch gave. *)
Lemma update_true_merged filename en w d :
  fs w !! default default_filename filename = Some (JsonText d) ->
  snd (update_dashboard_json filename en w) = Return true ->
  exists o,
    fetch_outcome (http en (http_calls w)) = Return o
    /\ fs (fst (update_dashboard_json filename en w)) =
         <[default default_filename filename :=
             JsonText (merged_doc o (clock en (S (clock_reads w))) d)]>
           (fs w).
Proof.
  intros Hf Hr. destruct (update_true_inv _ _ _ _ Hf Hr) as (o & Ho & _ & H).
  exists o. split; [exact Ho|exact H].
Qed.


(** ** The loop and the command line *)

Lemma sleep_converts s :
  - sleep_limit <= s <= sleep_limit -> (2 ^ 63 <=? Z.abs s * 10 ^ 9) = false.
Proof.
  unfold sleep_limit. intros H. apply Z.leb_gt.
  change (2 ^ 63) with 9223372036854775808.
  change (10 ^ 9) with 1000000000. lia.
Qed.

Lemma time_sleep_run s en w :
  0 <= s <= sleep_limit ->
  time_sleep s en w =
    (mk_world (fs w) (EvSleep s :: log w) (clock_reads w) (http_calls w)
       (S (sleeps w)),
     match wake en (sleeps w) with
     | Slept => Return tt
     | SleepInterrupted => Raise KeyboardInterrupt
     end).
Proof.
  intros H. unfold time_sleep. rewrite sleep_converts by lia.
  destruct (Z.ltb_spec s 0) as [?|_]; [lia|].
  destruct (wake en (sleeps w)); reflexivity.
Qed.

(** One turn of the loop on a well-formed store: a cycle, then the sleep,
    which either ends or is interrupted. *)
Lemma update_loop_step fuel iv en w d :
  fs w !! default_filename = Some (JsonText d) ->
  well_formed d = true ->
  0 <= iv * 60 <= sleep_limit ->
  plain_fetch (http en (http_calls w)) = true ->
  exists lg w1 d1,
    update_loop (S fuel) iv en w =
      match wake en (sleeps w) with
      | Slept => update_loop fuel iv en w1
      | SleepInterrupted => (w1, Raise KeyboardInterrupt)
      end
    /\ fs w1 !! default_filename = Some (JsonText d1)
    /\ well_formed d1 = true
    /\ log w1 = (lg ++ log w)%list
    /\ count is_write lg = 1%nat /\ count is_http lg = 1%nat
    /\ sleep_lengths lg = [iv * 60]
    /\ http_calls w1 = S (http_calls w) /\ sleeps w1 = S (sleeps w).
Proof.
  intros Hf Hw Hiv Hp.
  destruct (update_cycle_wf en w d Hf Hw Hp)
    as (lg & w0 & d1 & Hr & Hf1 & Hw1 & Hlog & Hcw & Hch & Hsl & Hhc & Hsc).
  exists (EvSleep (iv * 60) :: EvPrint (MsgNextUpdate iv) :: lg)%list,
    (mk_world (fs w0)
       (EvSleep (iv * 60) :: EvPrint (MsgNextUpdate iv) :: log w0)
       (clock_reads w0) (http_calls w0) (S (sleeps w0))), d1.
  split.
  { cbn [update_loop]. unfold bind at 1. rewrite Hr. step_print.
    unfold bind at 1. rewrite time_sleep_run by lia.
    cbn [fs log clock_reads http_calls sleeps]. rewrite Hsc.
    destruct (wake en (sleeps w)); reflexivity. }
  cbn [fs log http_calls sleeps count is_write is_http sleep_lengths].
  rewrite Hlog, Hcw, Hch, Hsl, Hhc, Hsc. auto 10.
Qed.


(** The loop while nothing interrupts it. *)
Lemma update_loop_unfinished fuel : forall iv en w d,
  fs w !! default_filename = Some (JsonText d) ->
  well_formed d = true ->
  0 <= iv * 60 <= sleep_limit ->
  (forall i, (i < fuel)%nat ->
     plain_fetch (http en (http_calls w + i)%nat) = true) ->
  (forall i, (i < fuel)%nat -> wake en (sleeps w + i)%nat = Slept) ->
  exists lg w',
    update_loop fuel iv en w = (w', Unfinished)
    /\ log w' = (lg ++ log w)%list
    /\ count is_write lg = fuel
    /\ sleep_lengths lg = repeat (iv * 60) fuel.
Proof.
  induction fuel as [|fuel IH]; intros iv en w d Hf Hw Hiv Hh Hs.
  { exists [], w. repeat split; reflexivity. }
  destruct (update_loop_step fuel iv en w d Hf Hw Hiv)
    as (lg & w1 & d1 & Hrun & Hf1 & Hw1 & Hlog & Hcw & Hch & Hsl & Hhc & Hsc).
  { rewrite <- (Nat.add_0_r (http_calls w)). apply Hh. lia. }
  rewrite Hrun, <- (Nat.add_0_r (sleeps w)), Hs by lia.
  destruct (IH iv en w1 d1 Hf1 Hw1 Hiv)
    as (lg2 & w' & Hr2 & Hlog2 & Hcw2 & Hsl2).
  - intros i Hlt. rewrite Hhc, Nat.add_succ_comm. apply Hh. lia.
  - intros i Hlt. rewrite Hsc, Nat.add_succ_comm. apply Hs. lia.
  - exists (lg2 ++ lg)%list, w'. split; [exact Hr2|].
    split; [rewrite Hlog2, Hlog, app_assoc; reflexivity|].
    rewrite !count_app, sleep_lengths_app, Hcw2, Hsl2, Hcw, Hsl.
    split; [lia|]. symmetry. apply (repeat_cons fuel).
Qed.

(** The command line reaches the loop with the interval given, or 15. *)
Lemma main_continuous fuel a0 rest :
  main fuel (a0 :: "--continuous" :: rest) =
    match rest with
    | [] => bind (ret 15) (fun i => continuous_update fuel (Some i))
    | a2 :: _ =>
        bind (lift (py_int a2)) (fun i => continuous_update fuel (Some i))
    end.
Proof. destruct rest; reflexivity. Qed.

(** ** A few values *)

Example isoformat_whole_second :
  isoformat (mk_datetime 2025 3 7 9 5 0 0) = "2025-03-07T09:05:00".
Proof. reflexivity. Qed.

Example isoformat_fraction :
  isoformat (mk_datetime 2025 3 7 9 5 1 250) = "2025-03-07T09:05:01.000250".
Proof. reflexivity. Qed.

Example py_int_plain : py_int "15" = Return 15.
Proof. reflexivity. Qed.

Example py_int_blanks_sign_underscore : py_int " -1_000 " = Return (-1000).
Proof. reflexivity. Qed.

Example py_int_refuses :
  py_int "1__0" = Raise ValueError /\ py_int "" = Raise ValueError.
Proof. split; reflexivity. Qed.

Example huge_int_overflows :
  py_format_f (JInt (2 ^ 1024)) = Raise OverflowError
  /\ py_format_f (JInt (2 ^ 1023)) = Return tt.
Proof. split; vm_compute; reflexivity. Qed.

(** * The properties of the specification *)

(** C1 (as amended).  A cycle whose price fetch gives nothing, run on a
    document in which [trigger_dashboard.exchange_supply_depletion.key_metrics]
    is a dict, returns [True] and stores the prior document with the two
    exchange-supply fields set to "3600000000" and "8500000000".  Every
    field on a path that parts ways with those two, in particular
    [current_market_metrics] and [metadata.last_updated], is as it was; and
    the stored document equals the prior one exactly when the two fields
    already held those strings. *)
Theorem failed_fetch_keeps_all_but_supply filename en w d km :
  fs w !! default default_filename filename = Some (JsonText d) ->
  lookup_path key_metrics_path d = Some (JObj km) ->
  fetch_outcome (http en (http_calls w)) = Return None ->
  let r := update_dashboard_json filename en w in
  snd r = Return true
  /\ fs (fst r) =
       <[default default_filename filename := JsonText (supply_doc d)]> (fs w)
  /\ (forall q,
        diverge q (key_metrics_path ++ ["binance_reserves_xrp"]) = true ->
        diverge q (key_metrics_path ++ ["total_exchange_supply_xrp"]) = true ->
        lookup_path q (supply_doc d) = lookup_path q d)
  /\ lookup_path ["current_market_metrics"] (supply_doc d)
       = lookup_path ["current_market_metrics"] d
  /\ lookup_path ["metadata"; "last_updated"] (supply_doc d)
       = lookup_path ["metadata"; "last_updated"] d
  /\ lookup_path key_metrics_path (supply_doc d) =
       Some (JObj (<["total_exchange_supply_xrp" := JStr "8500000000"]>
                    (<["binance_reserves_xrp" := JStr "3600000000"]> km)))
  /\ (supply_doc d = d <->
        km !! "binance_reserves_xrp" = Some (JStr "3600000000")
        /\ km !! "total_exchange_supply_xrp" = Some (JStr "8500000000")).
Proof.
  intros Hf Hk Ho r.
  assert (Hm : mergeable None d = true).
  { unfold mergeable, price_ready, has_key_metrics. rewrite Hk. reflexivity. }
  destruct (update_cycle filename en w d None Hf Ho Hm)
    as (lg & w' & Hr & Hfs & _).
  subst r. rewrite Hr. cbn [fst snd].
  split; [reflexivity|]. split; [exact Hfs|].
  split; [intros q; apply supply_doc_elsewhere|].
  split; [apply supply_doc_elsewhere; reflexivity|].
  split; [apply supply_doc_elsewhere; reflexivity|].
  split; [apply lookup_supply_key_metrics, Hk|].
  apply supply_doc_fixpoint, Hk.
Qed.

Lemma failed_fetch_keeps_all_but_supply_witness :
  let r := update_dashboard_json None env_down sample_world in
  snd r = Return true
  /\ stored_field (fst r) default_filename ["metadata"; "last_updated"]
       = Some (JStr "2025-01-01T00:00:00")
  /\ stored_field (fst r) default_filename
       ["current_market_metrics"; "price_usd"] = Some f_3_00.
Proof.
  pose proof (failed_fetch_keeps_all_but_supply None env_down sample_world
                sample_doc
                (list_to_map [("binance_reserves_xrp", JStr "3800000000");
                              ("total_exchange_supply_xrp", JStr "9000000000")])
                ltac:(vm_compute; reflexivity) ltac:(vm_compute; reflexivity)
                ltac:(vm_compute; reflexivity))
    as (Hr & Hfs & _ & _ & Hstamp & _).
  cbv zeta. split; [exact Hr|].
  unfold stored_field, stored. rewrite Hfs.
  rewrite lookup_insert_eq. split; [rewrite Hstamp|]; vm_compute; reflexivity.
Defined.

(** C1, as the claim has it, fails: starting from the sample document, a
    cycle whose fetch times out stores a document that differs from it, the
    Binance reserves going from "3800000000" to "3600000000". *)
Lemma failed_fetch_round_trip_counterexample :
  let r := update_dashboard_json None env_down sample_world in
  stored sample_world default_filename = Some sample_doc
  /\ fetch_outcome (http env_down 0%nat) = Return None
  /\ snd r = Return true
  /\ stored (fst r) default_filename <> Some sample_doc
  /\ stored_field sample_world default_filename
       (key_metrics_path ++ ["binance_reserves_xrp"])
     = Some (JStr "3800000000")
  /\ stored_field (fst r) default_filename
       (key_metrics_path ++ ["binance_reserves_xrp"])
     = Some (JStr "3600000000").
Proof.
  cbv zeta.
  set (leaf := (key_metrics_path ++ ["binance_reserves_xrp"])%list).
  assert (H : stored_field
                (fst (update_dashboard_json None env_down sample_world))
                default_filename leaf
              = Some (JStr "3600000000")) by (vm_compute; reflexivity).
  assert (H0 : lookup_path leaf sample_doc = Some (JStr "3800000000"))
    by (vm_compute; reflexivity).
  split; [vm_compute; reflexivity|].
  split; [vm_compute; reflexivity|].
  split; [vm_compute; reflexivity|].
  split; [|split; [vm_compute; reflexivity|exact H]].
  apply (stored_differs _ _ leaf).
  rewrite H, H0. discriminate.
Qed.




(** C3 (as amended).  When no file is at the path, the update returns
    [False]; when the file is there and is not JSON, it raises the decoding
    error and returns nothing.  Either way the file system is as before, no
    write and no request having been made. *)
Theorem unreadable_store_left_alone filename en w :
  let r := update_dashboard_json filename en w in
  (fs w !! default default_filename filename = None ->
   snd r = Return false)
  /\ (fs w !! default default_filename filename = Some Garbled ->
      snd r = Raise JSONDecodeError)
  /\ ((fs w !! default default_filename filename = None
       \/ fs w !! default default_filename filename = Some Garbled) ->
      fs (fst r) = fs w
      /\ count is_write (log (fst r)) = count is_write (log w)
      /\ count is_http (log (fst r)) = count is_http (log w)).
Proof.
  cbv zeta. split; [|split].
  - intros H. rewrite (update_missing _ _ _ H). reflexivity.
  - intros H. rewrite (update_garbled _ _ _ H). reflexivity.
  - intros [H|H]; [rewrite (update_missing _ _ _ H)
                  | rewrite (update_garbled _ _ _ H)];
      repeat split; reflexivity.
Qed.

Lemma unreadable_store_left_alone_witness :
  let r0 := update_dashboard_json None env_up empty_world in
  let r1 := update_dashboard_json None env_up garbled_world in
  snd r0 = Return false
  /\ snd r1 = Raise JSONDecodeError
  /\ fs (fst r0) = fs empty_world
  /\ fs (fst r1) = fs garbled_world.
Proof.
  destruct (unreadable_store_left_alone None env_up empty_world)
    as (H1 & _ & H3).
  destruct (unreadable_store_left_alone None env_up garbled_world)
    as (_ & G2 & G3).
  assert (E : fs empty_world !! default default_filename None = None)
    by (vm_compute; reflexivity).
  assert (G : fs garbled_world !! default default_filename None = Some Garbled)
    by (vm_compute; reflexivity).
  split; [exact (H1 E)|]. split; [exact (G2 G)|].
  split; [exact (proj1 (H3 (or_introl E))) | exact (proj1 (G3 (or_intror G)))].
Defined.

(** C3, as the claim has it, fails: on a file that is not JSON the update
    raises instead of returning a failure value. *)
Lemma corrupt_store_counterexample :
  let r := update_dashboard_json None env_up garbled_world in
  fs garbled_world !! default_filename = Some Garbled
  /\ snd r = Raise JSONDecodeError
  /\ snd r <> Return false.
Proof.
  assert (H : snd (update_dashboard_json None env_up garbled_world)
              = Raise JSONDecodeError) by (vm_compute; reflexivity).
  split; [vm_compute; reflexivity|]. split; [exact H|].
  rewrite H. discriminate.
Qed.

(** C4.  Whatever way the price fetch fails (no network, no answer in
    time, a status that [raise_for_status] rejects, a body that is not JSON
    or lacks one of the expected keys), [fetch_xrp_price_data] returns
    [None] and raises nothing; and the update that called it behaves as it
    does after any other failure: same result, same files, same requests,
    readings, writes and sleeps (the printed error text apart). *)
Theorem fetch_failure_gives_none en w :
  fetch_failure (http en (http_calls w)) ->
  snd (fetch_xrp_price_data en w) = Return None
  /\ fs (fst (fetch_xrp_price_data en w)) = fs w
  /\ forall filename en2,
       (forall n, clock en2 n = clock en n) ->
       fetch_failure (http en2 (http_calls w)) ->
       let r := update_dashboard_json filename en w in
       let r2 := update_dashboard_json filename en2 w in
       snd r = snd r2
       /\ fs (fst r) = fs (fst r2)
       /\ effects (log (fst r)) = effects (log (fst r2)).
Proof.
  intros Hfail. pose proof (fetch_failure_outcome _ Hfail) as Ho.
  destruct (fetch_run en w) as (lg & Hrun & _).
  rewrite Hrun, Ho. cbn [fst snd fs].
  split; [reflexivity|]. split; [reflexivity|].
  intros filename en2 Hclock Hfail2.
  pose proof (fetch_failure_outcome _ Hfail2) as Ho2. cbv zeta.
  destruct (fs w !! default default_filename filename) as [[d|]|] eqn:Hf.
  - rewrite !(update_decoded _ _ _ _ Hf). unfold opened.
    rewrite Hclock. cbn [fs log clock_reads http_calls sleeps].
    set (w1 := mk_world _ _ _ _ _).
    set (f := default default_filename filename).
    destruct (update_loaded_none f d en w1 Ho) as (lg1 & Hp1 & ->).
    destruct (update_loaded_none f d en2 w1 Ho2) as (lg2 & Hp2 & ->).
    cbv zeta.
    assert (He : forall tl : list event,
               effects (lg1 ++ tl)%list = effects (lg2 ++ tl)%list).
    { intros tl. rewrite !effects_app, (effects_prints _ Hp1),
        (effects_prints _ Hp2). reflexivity. }
    destruct (supply_result d); cbn [fst snd fs log];
      (split; [reflexivity|]); (split; [reflexivity|]);
      cbn [effects List.filter is_print negb]; rewrite He; reflexivity.
  - rewrite !(update_garbled _ _ _ Hf). unfold opened. rewrite Hclock.
    repeat split; reflexivity.
  - rewrite !(update_missing _ _ _ Hf). unfold opened. rewrite Hclock.
    repeat split; reflexivity.
Qed.

Lemma fetch_failure_gives_none_witness :
  snd (fetch_xrp_price_data env_404 sample_world) = Return None
  /\ snd (fetch_xrp_price_data env_short sample_world) = Return None
  /\ snd (update_dashboard_json None env_short sample_world)
     = snd (update_dashboard_json None env_down sample_world)
  /\ fs (fst (update_dashboard_json None env_short sample_world))
     = fs (fst (update_dashboard_json None env_down sample_world)).
Proof.
  assert (F : fetch_failure (http env_404 (http_calls sample_world))).
  { apply ff_status. cbn. lia. }
  assert (G : fetch_failure (http env_short (http_calls sample_world))).
  { apply (ff_missing_key _ short_quote "usd_24h_vol").
    - reflexivity.
    - cbn. auto.
    - vm_compute. reflexivity. }
  destruct (fetch_failure_gives_none env_404 sample_world F) as (H1 & _).
  destruct (fetch_failure_gives_none env_short sample_world G)
    as (H2 & _ & H3).
  destruct (H3 None env_down (fun n => eq_refl) ff_timeout) as (R & S & _).
  split; [exact H1|]. split; [exact H2|]. split; [exact R|exact S].
Defined.













(** C9.  When no file is at the path, the update returns [False] without
    having sent a request: the log gains no request and the count of
    requests made stays where it was.  The file is looked for before
    anything is fetched. *)
Theorem missing_store_no_request filename en w :
  fs w !! default default_filename filename = None ->
  let r := update_dashboard_json filename en w in
  snd r = Return false
  /\ http_calls (fst r) = http_calls w
  /\ count is_http (log (fst r)) = count is_http (log w)
  /\ fs (fst r) = fs w.
Proof.
  intros H. cbv zeta. rewrite (update_missing _ _ _ H).
  repeat split; reflexivity.
Qed.

Lemma missing_store_no_request_witness :
  let r := update_dashboard_json None env_up empty_world in
  snd r = Return false /\ http_calls (fst r) = 0%nat
  /\ count is_http (log (fst r)) = 0%nat.
Proof.
  destruct (missing_store_no_request None env_up empty_world
              ltac:(vm_compute; reflexivity)) as (H1 & H2 & H3 & _).
  cbv zeta. split; [exact H1|]. split; [exact H2|exact H3].
Defined.

(** C10.  With a first argument that is neither [--continuous] nor
    [--help], the program does nothing at all: the world is left exactly as
    it was (nothing printed, requested, read, written or slept) and the
    block ends normally. *)
Theorem main_unknown_directive fuel a0 a1 rest en w :
  a1 <> "--continuous" -> a1 <> "--help" ->
  main fuel (a0 :: a1 :: rest) en w = (w, Return tt).
Proof.
  intros H1 H2. unfold main.
  change (Nat.ltb 1 (length (a0 :: a1 :: rest))) with true.
  change ((a0 :: a1 :: rest) !! 1%nat) with (Some a1). cbv iota.
  destruct (String.eqb_spec a1 "--continuous") as [E|_]; [contradiction|].
  destruct (String.eqb_spec a1 "--help") as [E|_]; [contradiction|].
  reflexivity.
Qed.

Lemma main_unknown_directive_witness :
  main 3 ["xrp_dashboard_updater.py"; "--once"] env_up sample_world
    = (sample_world, Return tt).
Proof.
  apply (main_unknown_directive 3 "xrp_dashboard_updater.py" "--once" []
           env_up sample_world); discriminate.
Defined.

(** * Further properties of the code *)

(** ** The fetch *)

Lemma read_quote_intro r data v1 v2 v3 v4 :
  (400 <=? status_code r) && (status_code r <? 600) = false ->
  body r = Some data ->
  lookup_path ["ripple"; "usd"] data = Some v1 ->
  lookup_path ["ripple"; "usd_24h_change"] data = Some v2 ->
  lookup_path ["ripple"; "usd_market_cap"] data = Some v3 ->
  lookup_path ["ripple"; "usd_24h_vol"] data = Some v4 ->
  read_quote r = Return (mk_snapshot v1 v2 v3 v4).
Proof.
  intros Hs Hb H1 H2 H3 H4.
  unfold read_quote, raise_for_status, response_json. rewrite Hs, Hb.
  cbn [rbind]. destruct data; try discriminate.
  cbn [lookup_path py_getitem] in *.
  destruct (m !! "ripple") as [rp|]; [|discriminate]. cbn [rbind].
  destruct rp; try discriminate. cbn [lookup_path py_getitem] in *.
  destruct (m0 !! "usd"); [|discriminate].
  destruct (m0 !! "usd_24h_change"); [|discriminate].
  destruct (m0 !! "usd_market_cap"); [|discriminate].
  destruct (m0 !! "usd_24h_vol"); [|discriminate].
  cbn [rbind]. congruence.
Qed.

(** X1.  [fetch_xrp_price_data] returns a snapshot exactly when the status
    is not one that [raise_for_status] rejects and [response.json()]
    returns a value that holds the four values under [ripple]; the snapshot
    then carries those four values as they are.  ([body r = Some data]
    says that the call returned [data]: a body that the decoder refuses,
    JSON or not, is [None] and gives no snapshot.) *)
Theorem fetch_snapshot_iff en w q :
  snd (fetch_xrp_price_data en w) = Return (Some q) <->
  exists r data,
    http en (http_calls w) = HttpResponse r
    /\ (400 <=? status_code r) && (status_code r <? 600) = false
    /\ body r = Some data
    /\ lookup_path ["ripple"; "usd"] data = Some (price q)
    /\ lookup_path ["ripple"; "usd_24h_change"] data
       = Some (price_change_24h q)
    /\ lookup_path ["ripple"; "usd_market_cap"] data = Some (market_cap q)
    /\ lookup_path ["ripple"; "usd_24h_vol"] data = Some (volume_24h q).
Proof.
  destruct (fetch_run en w) as (lg & -> & _). cbn [snd].
  unfold fetch_outcome. split.
  - destruct (http en (http_calls w)) as [| | |r]; try discriminate.
    destruct (read_quote r) as [q'| |] eqn:E; try discriminate.
    intros H. injection H as <-.
    apply read_quote_Return in E as (Hs & data & Hb & Hrest).
    exists r, data. auto.
  - intros (r & data & -> & Hs & Hb & H1 & H2 & H3 & H4).
    rewrite (read_quote_intro _ _ _ _ _ _ Hs Hb H1 H2 H3 H4).
    destruct q; reflexivity.
Qed.

(** X2.  Whatever the request comes to, [fetch_xrp_price_data] sends
    exactly one request, to the price URL with a timeout of 10 seconds,
    changes no file, and prints at most one line after it: the error line,
    and only when it returns [None]. *)
Theorem fetch_one_request en w :
  let r := fetch_xrp_price_data en w in
  fs (fst r) = fs w
  /\ http_calls (fst r) = S (http_calls w)
  /\ sleeps (fst r) = sleeps w
  /\ ((snd r = Return None /\
       exists e, is_Exception e = true /\
         log (fst r) =
           EvPrint (MsgFetchError e) :: EvHttpGet price_url 10 :: log w)
      \/ (snd r <> Return None /\
          log (fst r) = EvHttpGet price_url 10 :: log w)).
Proof.
  cbv zeta.
  unfold fetch_xrp_price_data, try_except, bind, requests_get, lift, ret,
    print, emit.
  destruct (http en (http_calls w)) as [| | |r]; cbn [is_Exception fst snd fs
    http_calls sleeps log].
  - repeat (split; [reflexivity|]). right. split; [discriminate|reflexivity].
  - repeat (split; [reflexivity|]). left. split; [reflexivity|].
    eexists. split; [|reflexivity]. reflexivity.
  - repeat (split; [reflexivity|]). left. split; [reflexivity|].
    eexists. split; [|reflexivity]. reflexivity.
  - pose proof (read_quote_not_interrupt r) as Hq.
    destruct (read_quote r) as [q|e|]; [| |contradiction].
    + cbn [fst snd fs http_calls sleeps log].
      repeat (split; [reflexivity|]). right.
      split; [discriminate|reflexivity].
    + rewrite Hq. cbn [fst snd fs http_calls sleeps log].
      repeat (split; [reflexivity|]). left. split; [reflexivity|].
      exists e. split; [exact Hq|reflexivity].
Qed.

(** ** Cycles that stop before the write *)

(** What [update_loaded] returns, from what the fetch and the price step
    return, when the price step does not return. *)
Lemma update_loaded_price_raises f d en w q e :
  fetch_outcome (http en (http_calls w)) = Return (Some q) ->
  (forall w1, snd (merge_price q d en w1) = Raise e) ->
  snd (update_loaded f d en w) = Raise e.
Proof.
  intros Ho Hp. unfold update_loaded. step_print. step_fetch en lg Hrun Hlg.
  rewrite Ho. unfold bind at 1.
  match goal with
  | |- context [merge_price q d en ?w1] =>
      specialize (Hp w1); destruct (merge_price q d en w1) as [w2 res]
  end.
  cbn [snd] in Hp. subst res. reflexivity.
Qed.

Lemma update_loaded_supply_raises f d en w e :
  fetch_outcome (http en (http_calls w)) = Return None ->
  supply_result d = Raise e ->
  snd (update_loaded f d en w) = Raise e.
Proof.
  intros Ho Hs. destruct (update_loaded_none f d en w Ho) as (lg & _ & ->).
  cbv zeta. rewrite Hs. reflexivity.
Qed.

Lemma merge_price_checks q d en w :
  is_dict (lookup_path ["current_market_metrics"] d) = true ->
  is_dict (lookup_path ["metadata"] d) = true ->
  snd (merge_price q d en w) =
    rbind (format_checks q)
      (fun _ => Return (priced_doc q (clock en (clock_reads w)) d)).
Proof.
  intros Hc Hm.
  apply is_dict_Some in Hc as [cmm Hc]. apply is_dict_Some in Hm as [md Hm].
  unfold merge_price, priced_doc, format_checks, bind, lift, ret, print, emit,
    datetime_now.
  assign_metrics q Hc.
  erewrite assign_at_put.
  2:{ rewrite !lookup_put_other by discriminate. exact Hm. }
  destruct (py_format_f (price q)) as [[]| |]; try reflexivity.
  destruct (py_format_f (price_change_24h q)) as [[]| |]; try reflexivity.
  destruct (py_truediv_1e9 (market_cap q)) as [[]| |]; try reflexivity.
  destruct (py_truediv_1e9 (volume_24h q)) as [[]| |]; reflexivity.
Qed.

Lemma format_checks_fail q :
  numeric q = false ->
  exists e, format_checks q = Raise e
    /\ (e = TypeError \/ e = ValueError \/ e = OverflowError).
Proof.
  assert (F : forall v, is_number v = false ->
            exists e, py_format_f v = Raise e
              /\ (e = TypeError \/ e = ValueError \/ e = OverflowError)).
  { intros v. destruct v; cbn [is_number py_format_f]; intros H;
      try discriminate H; try rewrite H;
      (eexists; split; [reflexivity|tauto]). }
  assert (T : forall v, is_number v = false ->
            exists e, py_truediv_1e9 v = Raise e
              /\ (e = TypeError \/ e = ValueError \/ e = OverflowError)).
  { intros v. destruct v; cbn [is_number py_truediv_1e9]; intros H;
      try discriminate H; try rewrite H;
      (eexists; split; [reflexivity|tauto]). }
  unfold numeric, format_checks. intros H.
  destruct (is_number (price q)) eqn:E1.
  2:{ destruct (F _ E1) as (e & -> & He). eauto. }
  rewrite (is_number_format _ E1). cbn [rbind].
  destruct (is_number (price_change_24h q)) eqn:E2.
  2:{ destruct (F _ E2) as (e & -> & He). eauto. }
  rewrite (is_number_format _ E2). cbn [rbind].
  destruct (is_number (market_cap q)) eqn:E3.
  2:{ destruct (T _ E3) as (e & -> & He). eauto. }
  rewrite (is_number_truediv _ E3). cbn [rbind].
  destruct (is_number (volume_24h q)) eqn:E4; [discriminate|].
  destruct (T _ E4) as (e & -> & He). eauto.
Qed.

(** X3.  When the fetch gives a snapshot in which one of the four values
    is not a number that Python can format (a [null], a string, an integer
    too large for a float), the update raises [TypeError], [ValueError] or
    [OverflowError] and writes nothing: the file is left as it was. *)
Theorem unprintable_snapshot_raises filename en w d q :
  fs w !! default default_filename filename = Some (JsonText d) ->
  is_dict (lookup_path ["current_market_metrics"] d) = true ->
  is_dict (lookup_path ["metadata"] d) = true ->
  fetch_outcome (http en (http_calls w)) = Return (Some q) ->
  numeric q = false ->
  let r := update_dashboard_json filename en w in
  (exists e, snd r = Raise e
     /\ (e = TypeError \/ e = ValueError \/ e = OverflowError))
  /\ fs (fst r) = fs w
  /\ count is_write (log (fst r)) = count is_write (log w).
Proof.
  intros Hf Hc Hm Ho Hq r.
  destruct (format_checks_fail q Hq) as (e & Hfc & He).
  assert (Hr : snd r = Raise e).
  { subst r. rewrite (update_decoded _ _ _ _ Hf).
    apply (update_loaded_price_raises _ _ _ _ q); [exact Ho|].
    intros w1. rewrite (merge_price_checks _ _ _ _ Hc Hm), Hfc. reflexivity. }
  split; [exists e; auto|].
  apply writes_last_update. fold r. rewrite Hr. discriminate.
Qed.

Lemma unprintable_snapshot_raises_witness :
  let r := update_dashboard_json None env_null sample_world in
  (exists e, snd r = Raise e
     /\ (e = TypeError \/ e = ValueError \/ e = OverflowError))
  /\ fs (fst r) = fs sample_world.
Proof.
  destruct (unprintable_snapshot_raises None env_null sample_world sample_doc
              (mk_snapshot JNull f_1_2 f_1_7e11 f_4_8e9)
              ltac:(vm_compute; reflexivity) ltac:(vm_compute; reflexivity)
              ltac:(vm_compute; reflexivity) ltac:(vm_compute; reflexivity)
              ltac:(vm_compute; reflexivity)) as (H1 & H2 & _).
  split; [exact H1 | exact H2].
Defined.

Lemma assign_at_not_object path k x d :
  is_object d = false -> assign_at path k x d = Raise TypeError.
Proof. destruct d, path; try discriminate; reflexivity. Qed.

Lemma assign_at_section_not_dict p k x d v :
  lookup_path [p] d = Some v -> is_object v = false ->
  assign_at [p] k x d = Raise TypeError.
Proof.
  intros H Hv. destruct d; try discriminate. cbn [lookup_path] in H.
  cbn [assign_at py_getitem]. destruct (m !! p) as [sub|]; [|discriminate].
  injection H as ->. cbn [rbind]. destruct v; try discriminate; reflexivity.
Qed.

(** X4.  A store that decodes to something other than an object (an array,
    a string, a number), or an object whose [current_market_metrics] is not
    an object when the fetch gave a snapshot, makes the update raise
    [TypeError]; nothing is written. *)
Theorem wrong_shape_raises filename en w d o :
  fs w !! default default_filename filename = Some (JsonText d) ->
  fetch_outcome (http en (http_calls w)) = Return o ->
  let r := update_dashboard_json filename en w in
  (is_object d = false -> snd r = Raise TypeError)
  /\ (forall q v,
        o = Some q ->
        lookup_path ["current_market_metrics"] d = Some v ->
        is_object v = false ->
        snd r = Raise TypeError)
  /\ (snd r = Raise TypeError ->
      fs (fst r) = fs w
      /\ count is_write (log (fst r)) = count is_write (log w)).
Proof.
  intros Hf Ho r. subst r. split; [|split].
  - intros Hd. rewrite (update_decoded _ _ _ _ Hf). destruct o as [q|].
    + apply (update_loaded_price_raises _ _ _ _ q); [exact Ho|].
      intros w1. unfold merge_price, bind, lift.
      rewrite (assign_at_not_object _ _ _ _ Hd). reflexivity.
    + apply update_loaded_supply_raises; [exact Ho|].
      unfold supply_result. rewrite (assign_at_not_object _ _ _ _ Hd).
      reflexivity.
  - intros q v -> Hl Hv. rewrite (update_decoded _ _ _ _ Hf).
    apply (update_loaded_price_raises _ _ _ _ q); [exact Ho|].
    intros w1. unfold merge_price, bind, lift.
    rewrite (assign_at_section_not_dict _ _ _ _ _ Hl Hv). reflexivity.
  - intros Hr. apply writes_last_update. rewrite Hr. discriminate.
Qed.

Lemma wrong_shape_raises_witness :
  let r := update_dashboard_json None env_down array_world in
  snd r = Raise TypeError /\ fs (fst r) = fs array_world.
Proof.
  destruct (wrong_shape_raises None env_down array_world (JArr []) None
              ltac:(vm_compute; reflexivity) ltac:(vm_compute; reflexivity))
    as (H1 & _ & H3).
  pose proof (H1 eq_refl) as Hr.
  split; [exact Hr | exact (proj1 (H3 Hr))].
Defined.

(** ** Assignments one after the other *)

(** Assigning twice to a field keeps the second value. *)
Lemma put_at_absorb path k x y : forall d,
  put_at path k x (put_at path k y d) = put_at path k x d.
Proof.
  induction path as [|p ps IH]; intros d; destruct d; try reflexivity.
  - cbn [put_at]. rewrite insert_insert_eq. reflexivity.
  - cbn [put_at]. destruct (m !! p) as [sub|] eqn:E.
    + cbn [put_at]. rewrite lookup_insert_eq, IH, insert_insert_eq.
      reflexivity.
    + cbn [put_at]. rewrite E. reflexivity.
Qed.

(** Assignments to fields whose paths part ways commute. *)
Lemma put_at_comm p1 k1 x : forall p2 k2 y d,
  diverge (p1 ++ [k1]) (p2 ++ [k2]) = true ->
  put_at p1 k1 x (put_at p2 k2 y d) = put_at p2 k2 y (put_at p1 k1 x d).
Proof.
  induction p1 as [|a p1 IH]; intros p2 k2 y d H.
  - destruct p2 as [|b p2]; cbn [app diverge] in H.
    + destruct (String.eqb_spec k1 k2) as [->|Hne]; [discriminate|].
      destruct d; try reflexivity. cbn [put_at].
      rewrite insert_insert_ne by congruence. reflexivity.
    + destruct (String.eqb_spec k1 b) as [->|Hne].
      { destruct (p2 ++ [k2])%list; discriminate. }
      destruct d; try reflexivity. cbn [put_at].
      rewrite lookup_insert_ne by congruence.
      destruct (m !! b) as [sub|] eqn:E; cbn [put_at]; [|reflexivity].
      rewrite insert_insert_ne by congruence. reflexivity.
  - destruct p2 as [|b p2]; cbn [app diverge] in H.
    + destruct (String.eqb_spec a k2) as [->|Hne].
      { destruct (p1 ++ [k1])%list; discriminate. }
      destruct d; try reflexivity. cbn [put_at].
      rewrite lookup_insert_ne by congruence.
      destruct (m !! a) as [sub|] eqn:E; cbn [put_at]; [|reflexivity].
      rewrite insert_insert_ne by congruence. reflexivity.
    + destruct d; try reflexivity. cbn [put_at].
      destruct (String.eqb_spec a b) as [->|Hne].
      * destruct (m !! b) as [sub|] eqn:E; cbn [put_at].
        -- rewrite !lookup_insert_eq, !insert_insert_eq, (IH _ _ _ _ H).
           reflexivity.
        -- rewrite E. reflexivity.
      * destruct (m !! a) as [sa|] eqn:Ea; destruct (m !! b) as [sb|] eqn:Eb;
          cbn [put_at];
          rewrite ?lookup_insert_ne by congruence; rewrite ?Ea, ?Eb;
          try reflexivity.
        rewrite insert_insert_ne by congruence. reflexivity.
Qed.

Lemma supply_doc_idem d : supply_doc (supply_doc d) = supply_doc d.
Proof.
  unfold supply_doc.
  rewrite (put_at_comm key_metrics_path "binance_reserves_xrp" _
             key_metrics_path "total_exchange_supply_xrp") by reflexivity.
  rewrite put_at_absorb, put_at_absorb. reflexivity.
Qed.

Lemma supply_priced_comm q now d :
  supply_doc (priced_doc q now d) = priced_doc q now (supply_doc d).
Proof.
  unfold supply_doc, priced_doc.
  rewrite !(put_at_comm key_metrics_path "binance_reserves_xrp" _
              ["metadata"]) by reflexivity.
  rewrite !(put_at_comm key_metrics_path "binance_reserves_xrp" _
              ["current_market_metrics"]) by reflexivity.
  rewrite !(put_at_comm key_metrics_path "total_exchange_supply_xrp" _
              ["metadata"]) by reflexivity.
  rewrite !(put_at_comm key_metrics_path "total_exchange_supply_xrp" _
              ["current_market_metrics"]) by reflexivity.
  reflexivity.
Qed.

Lemma priced_doc_last q2 n2 q1 n1 d :
  priced_doc q2 n2 (priced_doc q1 n1 d) = priced_doc q2 n2 d.
Proof.
  unfold priced_doc.
  set (C := ["current_market_metrics"]). set (M := ["metadata"]).
  (* the old stamp moves out to the new one *)
  rewrite !(put_at_comm C _ _ M "last_updated" (JStr (isoformat n1)))
    by reflexivity.
  rewrite put_at_absorb.
  (* then each old metric moves out to the new one of its name *)
  rewrite !(put_at_comm C _ _ C "volume_24h_usd" (volume_24h q1))
    by reflexivity.
  rewrite put_at_absorb.
  rewrite !(put_at_comm C _ _ C "market_cap_usd" (market_cap q1))
    by reflexivity.
  rewrite put_at_absorb.
  rewrite !(put_at_comm C _ _ C "price_change_24h_pct" (price_change_24h q1))
    by reflexivity.
  rewrite put_at_absorb.
  rewrite put_at_absorb. reflexivity.
Qed.

(** Two merges in a row: the later snapshot, if there is one, replaces the
    earlier; a cycle without a snapshot changes nothing more. *)
Lemma merged_doc_twice o2 n2 o1 n1 d :
  merged_doc o2 n2 (merged_doc o1 n1 d) =
    match o2 with
    | Some q2 => merged_doc (Some q2) n2 d
    | None => merged_doc o1 n1 d
    end.
Proof.
  unfold merged_doc. destruct o2 as [q2|].
  - rewrite <- supply_priced_comm, supply_doc_idem.
    destruct o1 as [q1|]; [|reflexivity].
    rewrite priced_doc_last. reflexivity.
  - apply supply_doc_idem.
Qed.

(** X5.  A cycle whose fetch fails, run after any cycle that completed,
    completes too and stores exactly what was there: the file system is the
    same after it as before it. *)
Theorem failed_cycle_idempotent filename en en2 w :
  let r1 := update_dashboard_json filename en w in
  let r2 := update_dashboard_json filename en2 (fst r1) in
  snd r1 = Return true ->
  fetch_outcome (http en2 (http_calls (fst r1))) = Return None ->
  snd r2 = Return true /\ fs (fst r2) = fs (fst r1).
Proof.
  intros r1 r2 H1 Ho.
  destruct (update_true_stored _ _ _ H1) as (d1 & Hk & Hfs1). fold r1 in Hfs1.
  set (f := default default_filename filename) in *.
  assert (Hf : fs (fst r1) !! f = Some (JsonText (supply_doc d1))).
  { rewrite Hfs1. apply lookup_insert_eq. }
  assert (Hm : mergeable None (supply_doc d1) = true).
  { unfold mergeable, price_ready, has_key_metrics in *.
    apply is_dict_Some in Hk as [km Hkm].
    rewrite (lookup_supply_key_metrics _ _ Hkm). reflexivity. }
  destruct (update_cycle filename en2 (fst r1) _ None Hf Ho Hm)
    as (lg & w' & Hr & Hfs2 & _).
  subst r2. rewrite Hr. cbn [fst snd]. split; [reflexivity|].
  rewrite Hfs2. unfold merged_doc. rewrite supply_doc_idem.
  fold f. rewrite Hfs1 at 1. rewrite insert_insert_eq. symmetry. exact Hfs1.
Qed.

Lemma failed_cycle_idempotent_witness :
  let r1 := update_dashboard_json None env_up sample_world in
  let r2 := update_dashboard_json None env_down (fst r1) in
  snd r2 = Return true /\ fs (fst r2) = fs (fst r1).
Proof.
  apply (failed_cycle_idempotent None env_up env_down sample_world);
    vm_compute; reflexivity.
Defined.

(** X6.  Of two cycles that both complete, the second having fetched a
    snapshot, the first leaves no trace: the file holds what the second
    cycle alone would have stored, had it run on the original document. *)
Theorem later_snapshot_replaces filename en en2 w d q2 :
  let r1 := update_dashboard_json filename en w in
  let r2 := update_dashboard_json filename en2 (fst r1) in
  fs w !! default default_filename filename = Some (JsonText d) ->
  snd r1 = Return true ->
  snd r2 = Return true ->
  fetch_outcome (http en2 (http_calls (fst r1))) = Return (Some q2) ->
  fs (fst r2) =
    <[default default_filename filename :=
        JsonText (merged_doc (Some q2)
                    (clock en2 (S (clock_reads (fst r1)))) d)]> (fs w).
Proof.
  intros r1 r2 Hf H1 H2 Ho2.
  destruct (update_true_merged _ _ _ _ Hf H1) as (o1 & _ & Hfs1).
  fold r1 in Hfs1.
  set (f := default default_filename filename) in *.
  assert (Hf1 : fs (fst r1) !! f = Some (JsonText
            (merged_doc o1 (clock en (S (clock_reads w))) d))).
  { rewrite Hfs1. apply lookup_insert_eq. }
  destruct (update_true_merged _ _ _ _ Hf1 H2) as (o2 & Ho2' & Hfs2).
  fold r2 in Hfs2. rewrite Ho2 in Ho2'. injection Ho2' as <-.
  rewrite Hfs2, merged_doc_twice. fold f. rewrite Hfs1.
  apply insert_insert_eq.
Qed.

Lemma later_snapshot_replaces_witness :
  let r1 := update_dashboard_json None env_down sample_world in
  let r2 := update_dashboard_json None env_up (fst r1) in
  fs (fst r2) =
    <[default_filename :=
        JsonText (merged_doc (Some sample_snapshot) (sample_clock 2)
                    sample_doc)]> (fs sample_world).
Proof.
  apply (later_snapshot_replaces None env_down env_up sample_world sample_doc
           sample_snapshot); vm_compute; reflexivity.
Defined.

Lemma away_from_cons p ls q :
  away_from (p :: ls) q = true ->
  diverge q p = true /\ away_from ls q = true.
Proof. unfold away_from. cbn [forallb]. apply andb_prop. Qed.

Lemma merged_doc_elsewhere o now d q :
  away_from price_leaves q = true ->
  away_from supply_leaves q = true ->
  lookup_path q (merged_doc o now d) = lookup_path q d.
Proof.
  intros Hp Hs. unfold merged_doc.
  unfold supply_leaves in Hs.
  apply away_from_cons in Hs as [Hs1 Hs]. apply away_from_cons in Hs as [Hs2 _].
  rewrite (supply_doc_elsewhere _ _ Hs1 Hs2).
  destruct o as [sn|]; [|reflexivity].
  unfold price_leaves in Hp.
  apply away_from_cons in Hp as [H1 Hp]. apply away_from_cons in Hp as [H2 Hp].
  apply away_from_cons in Hp as [H3 Hp]. apply away_from_cons in Hp as [H4 Hp].
  apply away_from_cons in Hp as [H5 _].
  unfold priced_doc.
  rewrite (lookup_put_diverge ["metadata"] "last_updated" _ _ _ H5).
  rewrite (lookup_put_diverge ["current_market_metrics"] _ _ _ _ H4).
  rewrite (lookup_put_diverge ["current_market_metrics"] _ _ _ _ H3).
  rewrite (lookup_put_diverge ["current_market_metrics"] _ _ _ _ H2).
  apply (lookup_put_diverge ["current_market_metrics"] _ _ _ _ H1).
Qed.

(** X7.  A cycle that completes, with or without a snapshot, stores every
    field of the document it loaded as it was, except for the seven it
    assigns (the four metrics, the stamp, the two supply fields) and what
    lies on the way to them. *)
Theorem cycle_keeps_other_fields filename en w d q :
  fs w !! default default_filename filename = Some (JsonText d) ->
  snd (update_dashboard_json filename en w) = Return true ->
  away_from price_leaves q = true ->
  away_from supply_leaves q = true ->
  stored_field (fst (update_dashboard_json filename en w))
    (default default_filename filename) q
  = lookup_path q d.
Proof.
  intros Hf Hr Hp Hs.
  destruct (update_true_merged _ _ _ _ Hf Hr) as (o & _ & Hfs).
  unfold stored_field, stored. rewrite Hfs, lookup_insert_eq.
  apply merged_doc_elsewhere; assumption.
Qed.

Lemma cycle_keeps_other_fields_witness :
  stored_field (fst (update_dashboard_json None env_up sample_world))
    default_filename ["simulation_models"]
  = Some (JArr [JStr "base"; JStr "bull"])
  /\ stored_field (fst (update_dashboard_json None env_up sample_world))
       default_filename
       ["trigger_dashboard"; "exchange_supply_depletion"; "status"]
     = Some (JStr "watch")
  /\ stored_field (fst (update_dashboard_json None env_up sample_world))
       default_filename ["metadata"; "version"]
     = Some (JStr "1.0").
Proof.
  assert (Hf : fs sample_world !! default default_filename None
               = Some (JsonText sample_doc)) by (vm_compute; reflexivity).
  assert (Hr : snd (update_dashboard_json None env_up sample_world)
               = Return true) by (vm_compute; reflexivity).
  split; [|split].
  - etransitivity;
      [exact (cycle_keeps_other_fields None env_up sample_world sample_doc
                ["simulation_models"] Hf Hr eq_refl eq_refl)|].
    vm_compute. reflexivity.
  - etransitivity;
      [exact (cycle_keeps_other_fields None env_up sample_world sample_doc
                ["trigger_dashboard"; "exchange_supply_depletion"; "status"]
                Hf Hr eq_refl eq_refl)|].
    vm_compute. reflexivity.
  - etransitivity;
      [exact (cycle_keeps_other_fields None env_up sample_world sample_doc
                ["metadata"; "version"] Hf Hr eq_refl eq_refl)|].
    vm_compute. reflexivity.
Defined.

(** ** The files the program leaves alone *)

Lemma keeps_of_quiet {A} f (c : prog A) : quiet c -> keeps_other_files f c.
Proof. intros H en w p _. rewrite (proj1 (H en w)). reflexivity. Qed.

Lemma keeps_bind {A B} f (c : prog A) (k : A -> prog B) :
  keeps_other_files f c -> (forall a, keeps_other_files f (k a)) ->
  keeps_other_files f (bind c k).
Proof.
  intros Hc Hk en w p Hp. unfold bind. specialize (Hc en w p Hp).
  destruct (c en w) as [w1 [a|e|]]; cbn [fst] in *; try exact Hc.
  rewrite (Hk a en w1 p Hp). exact Hc.
Qed.

Lemma keeps_try {A} f (c : prog A) catches (h : exn -> prog A) :
  keeps_other_files f c -> (forall e, keeps_other_files f (h e)) ->
  keeps_other_files f (try_except c catches h).
Proof.
  intros Hc Hh en w p Hp. unfold try_except. specialize (Hc en w p Hp).
  destruct (c en w) as [w1 [a|e|]]; cbn [fst] in *; try exact Hc.
  destruct (catches e); [|exact Hc].
  rewrite (Hh e en w1 p Hp). exact Hc.
Qed.

Lemma keeps_dump f d : keeps_other_files f (json_dump_file f d).
Proof.
  intros en w p Hp. unfold json_dump_file. cbn [fst fs].
  apply lookup_insert_ne. congruence.
Qed.

Lemma quiet_time_sleep s : quiet (time_sleep s).
Proof.
  intros en w. unfold time_sleep.
  destruct (2 ^ 63 <=? Z.abs s * 10 ^ 9); [split; reflexivity|].
  destruct (s <? 0); [split; reflexivity|].
  destruct (wake en (sleeps w)); split; reflexivity.
Qed.

Lemma keeps_update filename :
  keeps_other_files (default default_filename filename)
    (update_dashboard_json filename).
Proof.
  set (f := default default_filename filename).
  assert (Hl : forall d, keeps_other_files f (update_loaded f d)).
  { intros d. unfold update_loaded.
    apply keeps_bind; [apply keeps_of_quiet, quiet_print|]. intros _.
    apply keeps_bind; [apply keeps_of_quiet, quiet_fetch|]. intros o.
    apply keeps_bind.
    { apply keeps_of_quiet. destruct o; [apply quiet_merge_price|quiet_steps]. }
    intros d1.
    apply keeps_bind; [apply keeps_of_quiet, quiet_print|]. intros _.
    apply keeps_bind; [apply keeps_of_quiet, quiet_merge_supply|]. intros d2.
    apply keeps_bind; [apply keeps_dump|]. intros _.
    apply keeps_of_quiet. quiet_steps. }
  unfold update_dashboard_json. fold f.
  apply keeps_bind; [apply keeps_of_quiet, quiet_print|]. intros _.
  apply keeps_bind; [apply keeps_of_quiet, quiet_now|]. intros now.
  apply keeps_bind; [apply keeps_of_quiet, quiet_print|]. intros _.
  apply keeps_bind; [apply keeps_of_quiet, quiet_print|]. intros _.
  apply keeps_bind.
  { apply keeps_of_quiet, quiet_try; [|intros e]; quiet_steps.
    apply quiet_load. }
  intros [b|d]; [apply keeps_of_quiet, quiet_ret | apply Hl].
Qed.

Lemma keeps_loop fuel iv :
  keeps_other_files default_filename (update_loop fuel iv).
Proof.
  induction fuel as [|fuel IH]; cbn [update_loop].
  - intros en w p _. reflexivity.
  - apply keeps_bind; [apply (keeps_update None)|]. intros _.
    apply keeps_bind; [apply keeps_of_quiet, quiet_print|]. intros _.
    apply keeps_bind; [apply keeps_of_quiet, quiet_time_sleep|]. intros _.
    exact IH.
Qed.

Lemma keeps_continuous fuel interval :
  keeps_other_files default_filename (continuous_update fuel interval).
Proof.
  unfold continuous_update.
  apply keeps_bind; [apply keeps_of_quiet, quiet_print|]. intros _.
  apply keeps_bind; [apply keeps_of_quiet, quiet_print|]. intros _.
  apply keeps_try; [apply keeps_loop|].
  intros e. apply keeps_of_quiet, quiet_print.
Qed.

Lemma keeps_main fuel argv :
  keeps_other_files default_filename (main fuel argv).
Proof.
  unfold main. destruct (Nat.ltb 1 (length argv)).
  - destruct (argv !! 1%nat) as [a1|]; [|apply keeps_of_quiet, quiet_ret].
    destruct (String.eqb a1 "--continuous").
    + apply keeps_bind; [|intros i; apply keeps_continuous].
      apply keeps_of_quiet.
      destruct (argv !! 2%nat); [apply quiet_lift | apply quiet_ret].
    + destruct (String.eqb a1 "--help"); apply keeps_of_quiet; quiet_steps.
  - apply keeps_bind; [apply (keeps_update None)|]. intros _.
    apply keeps_of_quiet, quiet_ret.
Qed.

(** X8.  The update changes no file but the one it is given, and the
    program as a whole, in every mode and for every command line, no file
    but [xrp_consolidated_dashboard.json]: any other path holds after the
    run what it held before, however the run ends. *)
Theorem other_files_untouched fuel argv filename en w p :
  (p <> default default_filename filename ->
   fs (fst (update_dashboard_json filename en w)) !! p = fs w !! p)
  /\ (p <> default_filename ->
      fs (fst (main fuel argv en w)) !! p = fs w !! p).
Proof.
  split; intros Hp.
  - apply keeps_update, Hp.
  - apply keeps_main, Hp.
Qed.

Lemma other_files_untouched_witness :
  fs (fst (main 1 ["xrp_dashboard_updater.py"] env_up shared_world))
    !! "notes.txt" = Some Garbled
  /\ fs (fst (update_dashboard_json None env_up shared_world))
       !! "notes.txt" = Some Garbled.
Proof.
  destruct (other_files_untouched 1 ["xrp_dashboard_updater.py"] None env_up
              shared_world "notes.txt") as [H1 H2].
  split.
  - rewrite H2 by discriminate. vm_compute. reflexivity.
  - rewrite H1 by discriminate. vm_compute. reflexivity.
Defined.

(** ** Ctrl+C during the request *)

Lemma update_loaded_interrupted f d en w :
  http en (http_calls w) = HttpInterrupted ->
  exists lg,
    update_loaded f d en w =
      (mk_world (fs w)
         (lg ++ EvHttpGet price_url 10 :: EvPrint MsgFetching :: log w)%list
         (clock_reads w) (S (http_calls w)) (sleeps w),
       Raise KeyboardInterrupt)
    /\ forallb is_print lg = true.
Proof.
  intros Hh. unfold update_loaded. step_print. step_fetch en lg Hrun Hlg.
  rewrite Hh. exists lg. split; [reflexivity | exact Hlg].
Qed.

Lemma update_interrupted filename d en w :
  fs w !! default default_filename filename = Some (JsonText d) ->
  http en (http_calls w) = HttpInterrupted ->
  exists lg w',
    update_dashboard_json filename en w = (w', Raise KeyboardInterrupt)
    /\ fs w' = fs w
    /\ log w' = (lg ++ log w)%list
    /\ count is_write lg = 0%nat /\ sleep_lengths lg = [].
Proof.
  intros Hf Hh. rewrite (update_decoded _ _ _ _ Hf).
  set (w1 := mk_world _ _ _ _ _).
  destruct (update_loaded_interrupted (default default_filename filename)
              d en w1 Hh) as (lg & -> & Hlg).
  destruct (prints_no_write _ Hlg) as (Hw0 & _ & Hs0).
  eexists (lg ++ [_; _; _; _; _; _])%list, _. split; [reflexivity|].
  cbn [fs log]. split; [reflexivity|].
  split; [unfold opened; cbn [log]; rewrite <- app_assoc; reflexivity|].
  rewrite count_app, sleep_lengths_app, Hw0, Hs0. split; reflexivity.
Qed.

(** X9.  Ctrl+C while the request is pending is not swallowed by the
    fetch: the update raises [KeyboardInterrupt] without writing, and the
    single-shot program ends with that exception. *)
Theorem interrupt_in_request_propagates filename fuel a0 d en w :
  http en (http_calls w) = HttpInterrupted ->
  snd (fetch_xrp_price_data en w) = Raise KeyboardInterrupt
  /\ (fs w !! default default_filename filename = Some (JsonText d) ->
      snd (update_dashboard_json filename en w) = Raise KeyboardInterrupt
      /\ fs (fst (update_dashboard_json filename en w)) = fs w)
  /\ (fs w !! default_filename = Some (JsonText d) ->
      snd (main fuel [a0] en w) = Raise KeyboardInterrupt).
Proof.
  intros Hh. split; [|split].
  - destruct (fetch_run en w) as (lg & -> & _). cbn [snd]. rewrite Hh.
    reflexivity.
  - intros Hf.
    destruct (update_interrupted filename d en w Hf Hh)
      as (lg & w' & -> & Hfs & _).
    split; [reflexivity | exact Hfs].
  - intros Hf.
    destruct (update_interrupted None d en w Hf Hh) as (lg & w' & Hr & _).
    unfold main. cbn [length Nat.ltb Nat.leb]. unfold bind. rewrite Hr.
    reflexivity.
Qed.

Lemma interrupt_in_request_propagates_witness :
  snd (fetch_xrp_price_data env_interrupted sample_world)
    = Raise KeyboardInterrupt
  /\ snd (main 1 ["xrp_dashboard_updater.py"] env_interrupted sample_world)
     = Raise KeyboardInterrupt.
Proof.
  destruct (interrupt_in_request_propagates None 1 "xrp_dashboard_updater.py"
              sample_doc env_interrupted sample_world eq_refl)
    as (H1 & _ & H3).
  split; [exact H1|]. apply H3. vm_compute. reflexivity.
Defined.

(** The loop, interrupted in the request of the cycle that follows [n]
    completed ones. *)
Lemma update_loop_request_interrupted n : forall fuel iv en w d,
  fs w !! default_filename = Some (JsonText d) ->
  well_formed d = true ->
  0 <= iv * 60 <= sleep_limit ->
  (forall i, (i < n)%nat ->
     plain_fetch (http en (http_calls w + i)%nat) = true) ->
  (forall i, (i < n)%nat -> wake en (sleeps w + i)%nat = Slept) ->
  http en (http_calls w + n)%nat = HttpInterrupted ->
  (n < fuel)%nat ->
  exists lg w',
    update_loop fuel iv en w = (w', Raise KeyboardInterrupt)
    /\ log w' = (lg ++ log w)%list
    /\ count is_write lg = n
    /\ sleep_lengths lg = repeat (iv * 60) n.
Proof.
  induction n as [|n IH]; intros fuel iv en w d Hf Hw Hiv Hh Hs Hi Hfuel;
    (destruct fuel as [|fuel]; [lia|]).
  - rewrite Nat.add_0_r in Hi.
    destruct (update_interrupted None d en w Hf Hi)
      as (lg & w' & Hr & _ & Hlog & Hcw & Hsl).
    exists lg, w'. cbn [update_loop]. unfold bind at 1. rewrite Hr.
    auto.
  - destruct (update_loop_step fuel iv en w d Hf Hw Hiv)
      as (lg & w1 & d1 & Hrun & Hf1 & Hw1 & Hlog & Hcw & Hch & Hsl & Hhc & Hsc).
    { rewrite <- (Nat.add_0_r (http_calls w)). apply Hh. lia. }
    rewrite Hrun, <- (Nat.add_0_r (sleeps w)), Hs by lia.
    destruct (IH fuel iv en w1 d1 Hf1 Hw1 Hiv)
      as (lg2 & w' & Hr2 & Hlog2 & Hcw2 & Hsl2).
    + intros i Hlt. rewrite Hhc, Nat.add_succ_comm. apply Hh. lia.
    + intros i Hlt. rewrite Hsc, Nat.add_succ_comm. apply Hs. lia.
    + rewrite Hhc, Nat.add_succ_comm. exact Hi.
    + lia.
    + exists (lg2 ++ lg)%list, w'. split; [exact Hr2|].
      split; [rewrite Hlog2, Hlog, app_assoc; reflexivity|].
      rewrite !count_app, sleep_lengths_app, Hcw2, Hsl2, Hcw, Hsl.
      split; [lia|]. symmetry. apply (repeat_cons n).
Qed.

(** X10.  In continuous mode Ctrl+C during a request ends the program as
    Ctrl+C during a sleep does: normally, with the farewell printed last
    (for an interval whose seconds [time.sleep] accepts).  After [n]
    completed cycles the document has been written [n] times and
    the cycle that was interrupted has written nothing. *)
Theorem continuous_interrupt_in_request fuel interval en w d n :
  fs w !! default_filename = Some (JsonText d) ->
  well_formed d = true ->
  0 <= default 15 interval * 60 <= sleep_limit ->
  (forall i, (i < n)%nat ->
     plain_fetch (http en (http_calls w + i)%nat) = true) ->
  (forall i, (i < n)%nat -> wake en (sleeps w + i)%nat = Slept) ->
  http en (http_calls w + n)%nat = HttpInterrupted ->
  (n < fuel)%nat ->
  let r := continuous_update fuel interval en w in
  exists lg,
    snd r = Return tt
    /\ log (fst r) = (EvPrint MsgFarewell :: lg ++ log w)%list
    /\ count is_write lg = n
    /\ sleep_lengths lg = repeat (default 15 interval * 60) n.
Proof.
  intros Hf Hw Hiv Hh Hs Hi Hn r.
  set (iv := default 15 interval) in *.
  assert (Hr : r = try_except (update_loop fuel iv) is_KeyboardInterrupt
                     (fun _ => print MsgFarewell) en (started iv w))
    by reflexivity.
  destruct (update_loop_request_interrupted n fuel iv en (started iv w) d
              Hf Hw Hiv Hh Hs Hi Hn) as (lg & w' & Hrun & Hlog & Hcw & Hsl).
  exists (lg ++ [EvPrint MsgPressCtrlC; EvPrint (MsgStarting iv)])%list.
  rewrite Hr. unfold try_except. rewrite Hrun.
  cbn [is_KeyboardInterrupt print emit fst snd log].
  split; [reflexivity|].
  split; [rewrite Hlog; unfold started; cbn [log];
          rewrite <- app_assoc; reflexivity|].
  rewrite count_app, sleep_lengths_app, Hcw, Hsl.
  cbn [count is_write sleep_lengths]. rewrite app_nil_r.
  split; [lia|reflexivity].
Qed.

Lemma continuous_interrupt_in_request_witness :
  exists lg,
    snd (continuous_update 3 None env_interrupted sample_world) = Return tt
    /\ log (fst (continuous_update 3 None env_interrupted sample_world))
       = (EvPrint MsgFarewell :: lg ++ log sample_world)%list
    /\ count is_write lg = 0%nat
    /\ sleep_lengths lg = [].
Proof.
  apply (continuous_interrupt_in_request 3 None env_interrupted sample_world
           sample_doc 0).
  - vm_compute. reflexivity.
  - vm_compute. reflexivity.
  - unfold sleep_limit. cbn. lia.
  - intros i Hi. lia.
  - intros i Hi. lia.
  - reflexivity.
  - lia.
Defined.

(** ** The loop on a store that is not there, or not sound *)





(** X12.  An exception of a cycle other than [KeyboardInterrupt] is not
    caught by continuous mode: when the first cycle raises it (a store that
    is not JSON, a missing section, a snapshot that cannot be printed), the
    program ends with that exception, there and then: no farewell, no
    sleep, no second try. *)
Theorem continuous_error_escapes fuel interval en w e :
  let iv := default 15 interval in
  snd (update_dashboard_json None en (started iv w)) = Raise e ->
  is_KeyboardInterrupt e = false ->
  continuous_update (S fuel) interval en w =
    (fst (update_dashboard_json None en (started iv w)), Raise e).
Proof.
  intros iv Hr He.
  change (continuous_update (S fuel) interval en w)
    with (try_except (update_loop (S fuel) iv) is_KeyboardInterrupt
            (fun _ => print MsgFarewell) en (started iv w)).
  unfold try_except. cbn [update_loop]. unfold bind at 1.
  destruct (update_dashboard_json None en (started iv w)) as [w1 res].
  cbn [fst snd] in *. subst res. rewrite He. reflexivity.
Qed.

Lemma continuous_error_escapes_witness :
  snd (continuous_update 3 None env_up garbled_world) = Raise JSONDecodeError.
Proof.
  assert (H : snd (update_dashboard_json None env_up
                     (started (default 15 None) garbled_world))
              = Raise JSONDecodeError) by (vm_compute; reflexivity).
  rewrite (continuous_error_escapes 2 None env_up garbled_world
             JSONDecodeError H eq_refl).
  reflexivity.
Defined.




(** X14.  Single-shot mode ignores what the update returns: the program
    ends normally whenever the update returns, and so also when the store
    is missing and the update has returned [False]. *)
Theorem single_shot_ignores_result fuel a0 en w :
  main fuel [a0] en w =
    (fst (update_dashboard_json None en w),
     rbind (snd (update_dashboard_json None en w)) (fun _ => Return tt))
  /\ (fs w !! default_filename = None ->
      snd (update_dashboard_json None en w) = Return false
      /\ snd (main fuel [a0] en w) = Return tt).
Proof.
  assert (H : main fuel [a0] en w =
                (fst (update_dashboard_json None en w),
                 rbind (snd (update_dashboard_json None en w))
                   (fun _ => Return tt))).
  { unfold main. cbn [length Nat.ltb Nat.leb]. unfold bind, ret.
    destruct (update_dashboard_json None en w) as [w1 [b|e|]]; reflexivity. }
  split; [exact H|].
  intros Hf. rewrite H, (update_missing None en w Hf). split; reflexivity.
Qed.

Lemma single_shot_ignores_result_witness :
  snd (update_dashboard_json None env_up empty_world) = Return false
  /\ snd (main 1 ["xrp_dashboard_updater.py"] env_up empty_world) = Return tt.
Proof.
  destruct (single_shot_ignores_result 1 "xrp_dashboard_updater.py" env_up
              empty_world) as [_ H].
  apply H. vm_compute. reflexivity.
Defined.

(** The store after [fuel] turns of the loop that nothing interrupts. *)
Lemma update_loop_keeps_well_formed fuel : forall iv en w d,
  fs w !! default_filename = Some (JsonText d) ->
  well_formed d = true ->
  0 <= iv * 60 <= sleep_limit ->
  (forall i, (i < fuel)%nat ->
     plain_fetch (http en (http_calls w + i)%nat) = true) ->
  (forall i, (i < fuel)%nat -> wake en (sleeps w + i)%nat = Slept) ->
  exists d',
    fs (fst (update_loop fuel iv en w)) !! default_filename
      = Some (JsonText d')
    /\ well_formed d' = true.
Proof.
  induction fuel as [|fuel IH]; intros iv en w d Hf Hw Hiv Hh Hs.
  { exists d. split; [exact Hf | exact Hw]. }
  destruct (update_loop_step fuel iv en w d Hf Hw Hiv)
    as (lg & w1 & d1 & Hrun & Hf1 & Hw1 & Hlog & Hcw & Hch & Hsl & Hhc & Hsc).
  { rewrite <- (Nat.add_0_r (http_calls w)). apply Hh. lia. }
  rewrite Hrun, <- (Nat.add_0_r (sleeps w)), Hs by lia.
  apply (IH iv en w1 d1 Hf1 Hw1 Hiv).
  - intros i Hlt. rewrite Hhc, Nat.add_succ_comm. apply Hh. lia.
  - intros i Hlt. rewrite Hsc, Nat.add_succ_comm. apply Hs. lia.
Qed.

(** X15.  Well-formedness of the store is an invariant.  Any cycle that
    completes on a well-formed document stores a well-formed document; and
    so does continuous mode after any number of cycles with fetches that
    fail or give four numbers. *)
Theorem well_formed_is_kept filename fuel interval en w d :
  well_formed d = true ->
  (fs w !! default default_filename filename = Some (JsonText d) ->
   snd (update_dashboard_json filename en w) = Return true ->
   exists d',
     stored (fst (update_dashboard_json filename en w))
       (default default_filename filename) = Some d'
     /\ well_formed d' = true)
  /\ (fs w !! default_filename = Some (JsonText d) ->
      0 <= default 15 interval * 60 <= sleep_limit ->
      (forall i, (i < fuel)%nat ->
         plain_fetch (http en (http_calls w + i)%nat) = true) ->
      (forall i, (i < fuel)%nat -> wake en (sleeps w + i)%nat = Slept) ->
      exists d',
        stored (fst (continuous_update fuel interval en w)) default_filename
          = Some d'
        /\ well_formed d' = true).
Proof.
  intros Hw. split.
  - intros Hf Hr. destruct (update_true_merged _ _ _ _ Hf Hr) as (o & _ & Hfs).
    eexists. unfold stored. rewrite Hfs, lookup_insert_eq.
    split; [reflexivity|]. apply well_formed_merged, Hw.
  - intros Hf Hiv Hh Hs.
    set (iv := default 15 interval) in *.
    destruct (update_loop_keeps_well_formed fuel iv en (started iv w) d
                Hf Hw Hiv Hh Hs) as (d' & Hf' & Hw').
    destruct (update_loop_unfinished fuel iv en (started iv w) d
                Hf Hw Hiv Hh Hs) as (lg & w' & Hrun & _).
    exists d'. split; [|exact Hw'].
    change (continuous_update fuel interval en w)
      with (try_except (update_loop fuel iv) is_KeyboardInterrupt
              (fun _ => print MsgFarewell) en (started iv w)).
    unfold try_except, stored. rewrite Hrun in *. cbn [fst] in *.
    rewrite Hf'. reflexivity.
Qed.

Lemma well_formed_is_kept_witness :
  (exists d',
     stored (fst (update_dashboard_json None env_up sample_world))
       default_filename = Some d'
     /\ well_formed d' = true)
  /\ (exists d',
        stored (fst (continuous_update 1 None env_up sample_world))
          default_filename = Some d'
        /\ well_formed d' = true).
Proof.
  destruct (well_formed_is_kept None 1 None env_up sample_world sample_doc
              ltac:(vm_compute; reflexivity)) as [H1 H2].
  split.
  - apply H1; vm_compute; reflexivity.
  - apply H2.
    + vm_compute. reflexivity.
    + unfold sleep_limit. cbn. lia.
    + intros i Hi. assert (i = 0%nat) as -> by lia. vm_compute. reflexivity.
    + intros i Hi. assert (i = 0%nat) as -> by lia. vm_compute. reflexivity.
Defined.

(** ** Integers on the command line *)

(** Reading the digits of a decimal numeral. *)
Lemma digits_acc d : forall p,
  digits (Z.pos p) true
    (list_ascii_of_string (NilEmpty.string_of_uint d))
  = Some (Z.pos (Pos.of_uint_acc d p)).
Proof.
  induction d; intros p;
    cbn [NilEmpty.string_of_uint list_ascii_of_string digits Pos.of_uint_acc];
    [reflexivity|..];
    match goal with
    | |- context [Ascii.eqb ?c "_"] =>
        change (Ascii.eqb c "_") with false; cbv iota;
        let v := eval vm_compute in (digit_of c) in
        change (digit_of c) with v; cbv iota
    end;
    match goal with
    | |- digits ?a true _ = Some (Z.pos (Pos.of_uint_acc _ ?q)) =>
        replace a with (Z.pos q) by lia; apply IHd
    end.
Qed.

Lemma digits_zero d : forall b,
  d <> Decimal.Nil \/ b = true ->
  digits 0 b (list_ascii_of_string (NilEmpty.string_of_uint d))
  = Some (Z.of_N (Pos.of_uint d)).
Proof.
  induction d; intros b Hb;
    cbn [NilEmpty.string_of_uint list_ascii_of_string digits Pos.of_uint];
    [destruct Hb as [Hb| ->]; [congruence | reflexivity]|..];
    match goal with
    | |- context [Ascii.eqb ?c "_"] =>
        change (Ascii.eqb c "_") with false; cbv iota;
        let v := eval vm_compute in (digit_of c) in
        change (digit_of c) with v; cbv iota
    end;
    [apply IHd; right; reflexivity|..];
    cbn [Z.mul Z.add Z.of_N]; apply digits_acc.
Qed.

Lemma to_uint_not_nil p : Pos.to_uint p <> Decimal.Nil.
Proof.
  intros H. apply (f_equal Pos.of_uint) in H.
  rewrite DecimalPos.Unsigned.of_to in H. discriminate.
Qed.

Lemma string_of_uint_chars d :
  d <> Decimal.Nil ->
  exists c r,
    list_ascii_of_string (NilEmpty.string_of_uint d) = c :: r
    /\ is_space c = false /\ Ascii.eqb c "-" = false
    /\ Ascii.eqb c "+" = false
    /\ Forall (fun a => is_space a = false) (c :: r).
Proof.
  intros Hd.
  assert (F : forall d', Forall (fun a => is_space a = false)
                (list_ascii_of_string (NilEmpty.string_of_uint d'))).
  { induction d'; cbn [NilEmpty.string_of_uint list_ascii_of_string];
      constructor; auto. }
  destruct d; [congruence|..];
    cbn [NilEmpty.string_of_uint list_ascii_of_string];
    (eexists _, _; split; [reflexivity|]);
    repeat (split; [reflexivity|]);
    (constructor; [reflexivity | apply F]).
Qed.

Lemma lstrip_id l :
  match l with c :: _ => is_space c = false | [] => True end ->
  lstrip l = l.
Proof. destruct l as [|c l]; [reflexivity|]. cbn [lstrip]. intros ->. reflexivity. Qed.

Lemma strip_id l :
  Forall (fun a => is_space a = false) l -> strip l = l.
Proof.
  intros H. unfold strip.
  rewrite (lstrip_id l) by (destruct H; auto).
  rewrite lstrip_id, rev_involutive; [reflexivity|].
  assert (Hr : Forall (fun a => is_space a = false) (rev l)).
  { apply Forall_forall. intros a Ha. rewrite Forall_forall in H.
    apply H. apply list_elem_of_In. apply in_rev, list_elem_of_In, Ha. }
  destruct Hr; auto.
Qed.

(** [int(str(z))] is [z]. *)
Lemma py_int_str z : py_int (py_str_int z) = Return z.
Proof.
  unfold py_int, py_str_int.
  destruct z as [|p|p]; [reflexivity| |].
  - cbn [Z.to_int NilZero.string_of_int]. unfold NilZero.string_of_uint.
    pose proof (to_uint_not_nil p) as Hn.
    destruct (string_of_uint_chars _ Hn) as (c & r & Hc & _ & Hm & Hp & Hall).
    replace (match Pos.to_uint p with
             | Decimal.Nil => "0"
             | _ => NilEmpty.string_of_uint (Pos.to_uint p)
             end) with (NilEmpty.string_of_uint (Pos.to_uint p))
      by (destruct (Pos.to_uint p); congruence).
    rewrite Hc, (strip_id _ Hall), Hm, Hp, <- Hc.
    rewrite (digits_zero _ false (or_introl Hn)).
    rewrite DecimalPos.Unsigned.of_to. reflexivity.
  - cbn [Z.to_int NilZero.string_of_int]. unfold NilZero.string_of_uint.
    pose proof (to_uint_not_nil p) as Hn.
    destruct (string_of_uint_chars _ Hn) as (c & r & Hc & _ & _ & _ & Hall).
    replace (match Pos.to_uint p with
             | Decimal.Nil => "0"
             | _ => NilEmpty.string_of_uint (Pos.to_uint p)
             end) with (NilEmpty.string_of_uint (Pos.to_uint p))
      by (destruct (Pos.to_uint p); congruence).
    cbn [list_ascii_of_string].
    rewrite strip_id by (constructor; [reflexivity | rewrite Hc; exact Hall]).
    change (Ascii.eqb "-" "-") with true. cbv iota.
    rewrite (digits_zero _ false (or_introl Hn)).
    rewrite DecimalPos.Unsigned.of_to. reflexivity.
Qed.

(** X16.  The interval written in decimal on the command line, negative
    or not, is the interval continuous mode runs with: for every integer
    [n] of at most 4300 digits, [--continuous str(n)] behaves as
    [continuous_update(n)], whatever follows on the command line. *)
Theorem main_continuous_decimal fuel a0 n rest en w :
  Z.abs n < int_str_limit ->
  main fuel (a0 :: "--continuous" :: py_str_int n :: rest) en w
  = continuous_update fuel (Some n) en w.
Proof.
  intros _. rewrite main_continuous. unfold bind, lift. rewrite py_int_str.
  reflexivity.
Qed.

Lemma main_continuous_decimal_witness :
  main 2 ["xrp_dashboard_updater.py"; "--continuous"; "-30"; "now"]
    env_up sample_world
  = continuous_update 2 (Some (-30)) env_up sample_world.
Proof.
  apply (main_continuous_decimal 2 "xrp_dashboard_updater.py" (-30) ["now"]
           env_up sample_world).
  vm_compute. reflexivity.
Defined.
